(** * SJFrontinus/practice: hot-tub evaporation model and weather client

    Shallow embedding of [hot_tub_evaporation.py] and of the request
    handling of [weather.py].

    Numbers.  The specification types every quantity as a real number, so
    Python's [float] is read as [R]: arithmetic is exact, rounding is not
    modelled.  What is kept of the float runtime is what changes control
    flow: [x / y] raises [ZeroDivisionError] when [y] is zero and [x ** y]
    raises [OverflowError] when the power exceeds the largest finite
    double.  Every division and power of the source goes through these two
    operations, so that "this call returns" is a theorem and never an
    assumption.  Equalities between products that the code associates
    differently are facts of this real reading only.  Module [F64] re-runs
    the core in IEEE binary64, with the power function fixed where its
    result is exact. *)

From Stdlib Require Import Reals Lra Lia ZArith Bool List String Ascii.
From Stdlib Require Import Floats.PrimFloat.
From Stdlib Require Import DecimalString.
Import ListNotations.

(** ** The fragment of the Python runtime the scripts use *)

Module Py.

Inductive exn : Type :=
| ZeroDivisionError
| OverflowError.

Inductive result (A : Type) : Type :=
| Ok (a : A)
| Raise (e : exn).

Arguments Ok {A} a.
Arguments Raise {A} e.

Definition bind {A B : Type} (m : result A) (k : A -> result B) : result B :=
  match m with
  | Ok a => k a
  | Raise e => Raise e
  end.

Definition returns {A : Type} (m : result A) : Prop := exists a, m = Ok a.

Local Open Scope R_scope.

(** [x / y] on floats: [float_div] raises when the divisor is zero. *)
Definition truediv (x y : R) : result R :=
  if Req_dec_T y 0 then Raise ZeroDivisionError else Ok (x / y).

(** Largest finite double, [(2 - 2^-52) * 2^1023]. *)
Definition float_max : R := (2 - / 2 ^ 52) * 2 ^ 1023.

(** The range check [float_pow] performs on the result of the C [pow]:
    [OverflowError] when the result is out of the double range.  The exact
    value is compared with [float_max]; the half unit in the last place by
    which C rounding moves this boundary is not modelled. *)
Definition checked (v : R) : result R :=
  if Rlt_dec float_max (Rabs v) then Raise OverflowError else Ok v.

(** [x ** y] for a positive base [x] and a float exponent. *)
Definition pow (x y : R) : result R := checked (Rpower x y).

(** [x ** n] for a literal natural exponent [n]; the base may have any sign. *)
Definition pow_nat (x : R) (n : nat) : result R := checked (x ^ n).

End Py.

Import Py.

Declare Scope py_scope.
Delimit Scope py_scope with py.
Notation "x <- m ;; k" := (bind m (fun x => k))
  (at level 61, m at next level, right associativity) : py_scope.
Notation "x // y" := (truediv x y) (at level 40, left associativity) : py_scope.
Notation "x ** y" := (Py.pow x y) (at level 30, right associativity) : py_scope.

(** ** hot_tub_evaporation.py *)

Module HotTub.

Local Open Scope R_scope.
Local Open Scope py_scope.

(** Antoine coefficients of line 30. *)
Definition A : R := 8.07131.
Definition B : R := 1730.63.
Definition C : R := 233.426.

(** Lines 15-35.  [temp_c = (temp_f - 32) * 5/9] parses as
    [((temp_f - 32) * 5) / 9]. *)
Definition vapor_pressure_mmhg (temp_f : R) : result R :=
  temp_c <- ((temp_f - 32) * 5) // 9 ;;
  q <- B // (C + temp_c) ;;
  let log_p := A - q in
  pressure_mmhg <- 10 ** log_p ;;
  Ok pressure_mmhg.

(** The dictionary returned at lines 121-130; its eight keys are fixed, so
    it is a record whose fields carry the keys' names. *)
Record EvapResult : Type := mkEvapResult {
  evap_inches_per_day : R;
  evap_gallons_per_day : R;
  industry_estimate_gallons : R;
  base_rate : R;
  wind_multiplier : R;
  agitation_multiplier : R;
  exposure_fraction : R;
  vp_deficit_mmhg : R
}.

(** Lines 37-130.  The [print] calls of lines 69-73 only format floats and
    cannot fail; console output is left out. *)
Definition calculate_evaporation_rate
    (water_temp_f air_temp_f relative_humidity_percent wind_speed_mph
     surface_area_sqft churn_area_percent exposure_hours_per_day : R)
    : result EvapResult :=
  pw_water <- vapor_pressure_mmhg water_temp_f ;;
  pw_air <- vapor_pressure_mmhg air_temp_f ;;
  rh <- relative_humidity_percent // 100 ;;
  let pa_air := pw_air * rh in
  let vp_deficit := pw_water - pa_air in
  let k_base := 0.0018 in
  let base_evap_inches_per_day := k_base * vp_deficit in
  let wind_multiplier := 1 + wind_speed_mph * 0.04 in
  churn_fraction <- churn_area_percent // 100 ;;
  let still_fraction := 1 - churn_fraction in
  let churn_multiplier := 2.0 in
  let agitation_multiplier :=
    still_fraction * 1.0 + churn_fraction * churn_multiplier in
  let evap_rate_full_day :=
    base_evap_inches_per_day * wind_multiplier * agitation_multiplier in
  exposure_fraction <- exposure_hours_per_day // 24 ;;
  let evap_rate_actual := evap_rate_full_day * exposure_fraction in
  depth_ft <- evap_rate_actual // 12 ;;
  let volume_cubic_feet := surface_area_sqft * depth_ft in
  let volume_gallons := volume_cubic_feet * 7.48 in
  let industry_base := 0.35 in
  industry_ft <- (industry_base * wind_multiplier * agitation_multiplier *
                  exposure_fraction * surface_area_sqft) // 12 ;;
  let industry_estimate := industry_ft * 7.48 in
  Ok {| evap_inches_per_day := evap_rate_actual;
        evap_gallons_per_day := volume_gallons;
        industry_estimate_gallons := industry_estimate;
        base_rate := base_evap_inches_per_day;
        wind_multiplier := wind_multiplier;
        agitation_multiplier := agitation_multiplier;
        exposure_fraction := exposure_fraction;
        vp_deficit_mmhg := vp_deficit |}.

(** A float that may be [float('inf')]. *)
Inductive xfloat : Type :=
| Finite (x : R)
| Infinity.

(** Line 194: [1 / depth_loss_per_day if depth_loss_per_day > 0 else
    float('inf')]. *)
Definition days_to_lose_one_inch (depth_loss_per_day : R) : result xfloat :=
  if Rlt_dec 0 depth_loss_per_day
  then (d <- 1 // depth_loss_per_day ;; Ok (Finite d))
  else Ok Infinity.

(** What [main] computes and prints, once the seven prompts are answered. *)
Record Report : Type := mkReport {
  surface_area : R;
  results : EvapResult;
  weekly_loss : R;
  monthly_loss : R;
  days_per_inch : xfloat
}.

(** Lines 132-195 after input parsing; [math.pi] is read as [PI]. *)
Definition main
    (diameter_ft water_temp exposure_hours air_temp humidity wind_speed
     churn_percent : R) : result Report :=
  radius_ft <- diameter_ft // 2 ;;
  radius_sq <- pow_nat radius_ft 2 ;;
  let surface_area := PI * radius_sq in
  results <- calculate_evaporation_rate water_temp air_temp humidity
               wind_speed surface_area churn_percent exposure_hours ;;
  let weekly_loss := evap_gallons_per_day results * 7 in
  let monthly_loss := evap_gallons_per_day results * 30 in
  let depth_loss_per_day := evap_inches_per_day results in
  days <- days_to_lose_one_inch depth_loss_per_day ;;
  Ok {| surface_area := surface_area;
        results := results;
        weekly_loss := weekly_loss;
        monthly_loss := monthly_loss;
        days_per_inch := days |}.

(** The specification's wording of the helper (section 4.1): Celsius value
    [(T - 32) * 5/9], then [log10 P = A - B / (C + T_celsius)] and
    [P = 10 ^ (that)], with [10 ^ y] the real exponential [exp (y * ln 10)]. *)
Definition celsius_of_fahrenheit (T : R) : R := (T - 32) * (5 / 9).

Definition antoine_log10 (T : R) : R := A - B / (C + celsius_of_fahrenheit T).

Definition antoine_reference (T : R) : R := exp (antoine_log10 T * ln 10).

Definition log10 (x : R) : R := ln x / ln 10.

End HotTub.

(** ** weather.py *)

Module Weather.

Local Open Scope string_scope.
Local Open Scope Z_scope.

(** *** Strings (ASCII rules for case and white space) *)

Definition nl : string := String (ascii_of_nat 10) EmptyString.

Fixpoint repeat_string (s : string) (n : nat) : string :=
  match n with
  | O => ""
  | S k => s ++ repeat_string s k
  end.

(** The ASCII characters for which [str.isspace] holds. *)
Definition is_space (c : ascii) : bool :=
  let n := nat_of_ascii c in
  (Nat.leb 9 n && Nat.leb n 13) || (Nat.leb 28 n && Nat.leb n 32).

Definition lower_ascii (c : ascii) : ascii :=
  let n := nat_of_ascii c in
  if Nat.leb 65 n && Nat.leb n 90 then ascii_of_nat (n + 32) else c.

Definition upper_ascii (c : ascii) : ascii :=
  let n := nat_of_ascii c in
  if Nat.leb 97 n && Nat.leb n 122 then ascii_of_nat (n - 32) else c.

Fixpoint lower (s : string) : string :=
  match s with
  | EmptyString => EmptyString
  | String c r => String (lower_ascii c) (lower r)
  end.

Definition capitalize (s : string) : string :=
  match s with
  | EmptyString => EmptyString
  | String c r => String (upper_ascii c) (lower r)
  end.

Fixpoint lstrip (s : list ascii) : list ascii :=
  match s with
  | c :: r => if is_space c then lstrip r else s
  | [] => []
  end.

Definition strip (s : string) : string :=
  string_of_list_ascii
    (rev (lstrip (rev (lstrip (list_ascii_of_string s))))).

(** *** Values, exceptions and console output *)

(** Python values as [response.json()] produces them. *)
#[local] Set Warnings "-register-all".
Inductive pyval : Type :=
| PNone
| PBool (b : bool)
| PInt (z : Z)
| PFloat (f : float)
| PStr (s : string)
| PList (l : list pyval)
| PDict (d : list (string * pyval)).

(** Exception classes: the root [requests.exceptions.RequestException], its
    subclass [HTTPError], any other subclass of it by name
    ([ConnectionError], [Timeout], [TooManyRedirects], [JSONDecodeError],
    ...), and exceptions from outside that hierarchy. *)
Inductive exn_class : Type :=
| RequestException
| HTTPError
| RequestSubclass (name : string)
| Builtin (name : string).

Record exn : Type := mkExn { cls : exn_class; text : string }.

(** [isinstance(e, requests.exceptions.HTTPError)]. *)
Definition is_HTTPError (e : exn) : bool :=
  match cls e with
  | HTTPError => true
  | _ => false
  end.

(** [isinstance(e, requests.exceptions.RequestException)]. *)
Definition is_RequestException (e : exn) : bool :=
  match cls e with
  | Builtin _ => false
  | _ => true
  end.

Inductive outcome (A : Type) : Type :=
| Return (a : A)
| Raised (e : exn).

Arguments Return {A} a.
Arguments Raised {A} e.

Declare Scope io_scope.

(** A computation: the lines it passed to [print], then how it ended. *)
Definition io (A : Type) : Type := (list string * outcome A)%type.

Definition ret {A : Type} (a : A) : io A := ([], Return a).
Definition raise {A : Type} (e : exn) : io A := ([], Raised e).
Definition print (s : string) : io unit := ([s], Return tt).
Definition lift {A : Type} (r : outcome A) : io A := ([], r).

Definition bind {A B : Type} (m : io A) (k : A -> io B) : io B :=
  match m with
  | (out, Raised e) => (out, Raised e)
  | (out, Return a) => let (out', r) := k a in ((out ++ out')%list, r)
  end.

(** [try: m  except ...: handler]: [handler] answers [None] when no
    [except] clause matches, and the exception propagates. *)
Definition try_except {A : Type} (m : io A) (handler : exn -> option (io A))
    : io A :=
  match m with
  | (out, Return a) => (out, Return a)
  | (out, Raised e) =>
      match handler e with
      | Some h => let (out', r) := h in ((out ++ out')%list, r)
      | None => (out, Raised e)
      end
  end.

Notation "x <- m ;; k" := (bind m (fun x => k))
  (at level 61, m at next level, right associativity) : io_scope.
Notation "m ;;; k" := (bind m (fun _ => k))
  (at level 61, right associativity) : io_scope.
Local Open Scope io_scope.

Definition builtin (name : string) (msg : string) : exn :=
  {| cls := Builtin name; text := msg |}.

(** *** The [requests] library, as far as the script sees it *)

Record Request : Type := mkRequest {
  url : string;
  params : list (string * string);
  timeout : Z
}.

(** A received response: its status code, the text of the [HTTPError] that
    [raise_for_status] builds for it, and what [.json()] does. *)
Record Response : Type := mkResponse {
  status_code : Z;
  http_error_text : string;
  json : outcome pyval
}.

(** How [requests.get] ends.  It raises subclasses of [RequestException]
    other than [HTTPError] (the library raises [HTTPError] only from
    [raise_for_status]), or something from outside the hierarchy. *)
Inductive transport : Type :=
| Delivered (r : Response)
| NetworkError (name : string) (msg : string)
| Interrupted (name : string) (msg : string).

(** [Response.raise_for_status]: an [HTTPError] for 4xx and 5xx. *)
Definition raise_for_status (r : Response) : io unit :=
  if (400 <=? status_code r) && (status_code r <? 600)
  then raise {| cls := HTTPError; text := http_error_text r |}
  else ret tt.

(** Everything outside the script: the network (the [n]-th call of
    [requests.get]), [str] on values and the local-time formatting of
    [datetime.fromtimestamp(..).strftime(..)]. *)
Record World : Type := mkWorld {
  http_get : nat -> Request -> transport;
  str_of : pyval -> string;
  strftime_local : pyval -> outcome string
}.

Definition BASE_URL : string :=
  "http://api.openweathermap.org/data/2.5/weather".

(** The call [get_weather] makes: [requests.get(self.BASE_URL,
    params=params, timeout=10)] with the dictionary of lines 39-43. *)
Definition request_for (api_key city : string) : Request :=
  {| url := BASE_URL;
     params := [("q", city); ("appid", api_key); ("units", "metric")];
     timeout := 10 |}.

(** The two [except] clauses of lines 49-57, tried in order.  [response] is
    the local variable of the [try] body, unbound while [requests.get] has
    not returned. *)
Definition get_weather_handler (city : string) (response : option Response)
    (e : exn) : option (io pyval) :=
  if is_HTTPError e then
    Some (match response with
          | None =>
              raise (builtin "UnboundLocalError"
                             "cannot access local variable 'response'")
          | Some r =>
              (if status_code r =? 404
               then print ("Error: City '" ++ city ++ "' not found.")
               else print ("HTTP Error: " ++ text e)) ;;;
              ret PNone
          end)
  else if is_RequestException e then
    Some (print ("Error fetching weather data: " ++ text e) ;;;
          ret PNone)
  else None.

(** Lines 29-57. *)
Definition get_weather (w : World) (api_key : string) (tick : nat)
    (city : string) : io pyval :=
  match http_get w tick (request_for api_key city) with
  | NetworkError name msg =>
      try_except (raise {| cls := RequestSubclass name; text := msg |})
                 (get_weather_handler city None)
  | Interrupted name msg =>
      try_except (raise (builtin name msg)) (get_weather_handler city None)
  | Delivered response =>
      try_except (raise_for_status response ;;; lift (json response))
                 (get_weather_handler city (Some response))
  end.

(** *** Subscripting and truth values *)

Inductive key : Type :=
| KStr (s : string)
| KInt (z : Z).

Fixpoint lookup (k : string) (d : list (string * pyval)) : option pyval :=
  match d with
  | [] => None
  | (k', v) :: r => if (k' =? k)%string then Some v else lookup k r
  end.

(** Position of index [z] in a sequence of length [n]; negative indices
    count from the end. *)
Definition index_of (z : Z) (n : nat) : option nat :=
  let len := Z.of_nat n in
  if (0 <=? z) && (z <? len) then Some (Z.to_nat z)
  else if (- len <=? z) && (z <? 0) then Some (Z.to_nat (len + z))
  else None.

(** [v[k]]. *)
Definition getitem (v : pyval) (k : key) : outcome pyval :=
  match v, k with
  | PDict d, KStr s =>
      match lookup s d with
      | Some x => Return x
      | None => Raised (builtin "KeyError" s)
      end
  | PDict _, KInt _ => Raised (builtin "KeyError" "")
  | PList l, KInt z =>
      match index_of z (List.length l) with
      | Some i => match nth_error l i with
                  | Some x => Return x
                  | None => Raised (builtin "IndexError" "list index out of range")
                  end
      | None => Raised (builtin "IndexError" "list index out of range")
      end
  | PStr s, KInt z =>
      match index_of z (String.length s) with
      | Some i => match String.get i s with
                  | Some c => Return (PStr (String c EmptyString))
                  | None => Raised (builtin "IndexError" "string index out of range")
                  end
      | None => Raised (builtin "IndexError" "string index out of range")
      end
  | _, _ => Raised (builtin "TypeError" "bad subscript")
  end.

(** [bool(v)], as [if not weather_data] tests it. *)
Definition truthy (v : pyval) : bool :=
  match v with
  | PNone => false
  | PBool b => b
  | PInt z => negb (z =? 0)
  | PFloat f => negb (PrimFloat.eqb f PrimFloat.zero)
  | PStr s => negb (s =? "")%string
  | PList l => negb (Nat.eqb (List.length l) 0)
  | PDict d => negb (Nat.eqb (List.length d) 0)
  end.

(** [v.capitalize()]; only strings have the method. *)
Definition capitalize_value (v : pyval) : outcome pyval :=
  match v with
  | PStr s => Return (PStr (capitalize s))
  | _ => Raised (builtin "AttributeError" "capitalize")
  end.

Definition get2 (v : pyval) (k1 k2 : key) : io pyval :=
  x <- lift (getitem v k1) ;; lift (getitem x k2).

(** Lines 59-91. *)
Definition display_weather (w : World) (weather_data : pyval) : io unit :=
  if negb (truthy weather_data) then ret tt
  else
    city <- lift (getitem weather_data (KStr "name")) ;;
    country <- get2 weather_data (KStr "sys") (KStr "country") ;;
    temp <- get2 weather_data (KStr "main") (KStr "temp") ;;
    feels_like <- get2 weather_data (KStr "main") (KStr "feels_like") ;;
    humidity <- get2 weather_data (KStr "main") (KStr "humidity") ;;
    pressure <- get2 weather_data (KStr "main") (KStr "pressure") ;;
    first <- get2 weather_data (KStr "weather") (KInt 0) ;;
    raw_description <- lift (getitem first (KStr "description")) ;;
    description <- lift (capitalize_value raw_description) ;;
    wind_speed <- get2 weather_data (KStr "wind") (KStr "speed") ;;
    timestamp <- lift (getitem weather_data (KStr "dt")) ;;
    time <- lift (strftime_local w timestamp) ;;
    let str := str_of w in
    print (nl ++ repeat_string "=" 50) ;;;
    print ("Weather in " ++ str city ++ ", " ++ str country) ;;;
    print (repeat_string "=" 50) ;;;
    print ("Time: " ++ time) ;;;
    print ("Condition: " ++ str description) ;;;
    print ("Temperature: " ++ str temp ++ "°C (Feels like "
             ++ str feels_like ++ "°C)") ;;;
    print ("Humidity: " ++ str humidity ++ "%") ;;;
    print ("Pressure: " ++ str pressure ++ " hPa") ;;;
    print ("Wind Speed: " ++ str wind_speed ++ " m/s") ;;;
    print (repeat_string "=" 50 ++ nl).

(** *** The interactive loop *)

(** The [while True] loop of lines 98-110 over the lines still to be read
    from standard input; [input] raises [EOFError] when they run out.
    [tick] counts the calls of [requests.get] made so far.  Prompts written
    by [input] are not part of the console record. *)
Fixpoint run_loop (w : World) (api_key : string) (tick : nat)
    (stdin : list string) : io unit :=
  match stdin with
  | [] => raise (builtin "EOFError" "EOF when reading a line")
  | line :: rest =>
      let city := strip line in
      if existsb (String.eqb (lower city)) ["quit"; "exit"]
      then print "Thank you for using Weather App. Goodbye!"
      else if (city =? "")%string
      then print "Please enter a valid city name." ;;;
           run_loop w api_key tick rest
      else
        weather_data <- get_weather w api_key tick city ;;
        display_weather w weather_data ;;;
        run_loop w api_key (S tick) rest
  end.

(** Lines 93-110. *)
Definition run (w : World) (api_key : string) (stdin : list string)
    : io unit :=
  print "Welcome to the Weather App!" ;;;
  print ("Type 'quit' or 'exit' to close the app." ++ nl) ;;;
  run_loop w api_key 0 stdin.

(** Lines 21-27: [getenv] is the value of [OPENWEATHER_API_KEY]. *)
Definition init (getenv : option string) : io string :=
  match getenv with
  | Some k =>
      if (k =? "")%string
      then print "Error: OPENWEATHER_API_KEY not found in environment variables." ;;;
           print "Please create a .env file with your API key." ;;;
           raise (builtin "SystemExit" "1")
      else ret k
  | None =>
      print "Error: OPENWEATHER_API_KEY not found in environment variables." ;;;
      print "Please create a .env file with your API key." ;;;
      raise (builtin "SystemExit" "1")
  end.

(** Lines 113-116. *)
Definition main (w : World) (getenv : option string) (stdin : list string)
    : io unit :=
  api_key <- init getenv ;;
  run w api_key stdin.

(** A world in which the service knows no city: every request is answered
    with status 404. *)
Definition world_without_cities : World :=
  {| http_get := fun _ _ =>
       Delivered {| status_code := 404;
                    http_error_text := "404 Client Error: Not Found";
                    json := Return (PDict [("cod", PStr "404")]) |};
     str_of := fun _ => "";
     strftime_local := fun _ => Return "" |}.

(** [str] on strings and integers, enough for the sample worlds below. *)
Definition sample_str (v : pyval) : string :=
  match v with
  | PStr s => s
  | PInt z => NilZero.string_of_int (Z.to_int z)
  | _ => "?"
  end.

(** A body with every field [display_weather] reads. *)
Definition london_body : pyval :=
  PDict [("name", PStr "London");
         ("sys", PDict [("country", PStr "GB")]);
         ("main", PDict [("temp", PInt 15); ("feels_like", PInt 14);
                         ("humidity", PInt 72); ("pressure", PInt 1012)]);
         ("weather", PList [PDict [("description", PStr "light rain")]]);
         ("wind", PDict [("speed", PInt 4)]);
         ("dt", PInt 1700000000)].

(** A world in which every request is answered with status 200 and
    [london_body]. *)
Definition world_with_london : World :=
  {| http_get := fun _ _ =>
       Delivered {| status_code := 200;
                    http_error_text := "";
                    json := Return london_body |};
     str_of := sample_str;
     strftime_local := fun _ => Return "2023-11-14 22:13:20" |}.

(** A world in which the service answers 200 with an error object instead
    of a report. *)
Definition world_with_error_object : World :=
  {| http_get := fun _ _ =>
       Delivered {| status_code := 200;
                    http_error_text := "";
                    json := Return (PDict [("message", PStr "try later")]) |};
     str_of := sample_str;
     strftime_local := fun _ => Return "" |}.

(** A world in which the user interrupts every request. *)
Definition world_interrupted : World :=
  {| http_get := fun _ _ => Interrupted "KeyboardInterrupt" "";
     str_of := sample_str;
     strftime_local := fun _ => Return "" |}.

(** A world without network: every request fails to connect. *)
Definition world_offline : World :=
  {| http_get := fun _ _ => NetworkError "ConnectionError" "unreachable";
     str_of := sample_str;
     strftime_local := fun _ => Return "" |}.

End Weather.

(** ** Binary64 cross-checks

    The steps of [hot_tub_evaporation.py] that use only [+ - * /], run on
    IEEE doubles with round-to-nearest as CPython does.  Decimal literals
    denote the nearest double, as in Python. *)

Module F64.

#[local] Set Warnings "-inexact-float".
Local Open Scope float_scope.

(** Float division: [None] stands for [ZeroDivisionError]. *)
Definition truediv (x y : float) : option float :=
  if PrimFloat.eqb y 0 then None else Some (x / y).

(** Line 26. *)
Definition temp_c (temp_f : float) : float := (temp_f - 32) * 5 / 9.

(** Line 32, up to the division. *)
Definition log_p (temp_f : float) : option float :=
  match truediv 1730.63 (233.426 + temp_c temp_f) with
  | Some q => Some (8.07131 - q)
  | None => None
  end.

(** Line 86. *)
Definition wind_multiplier (wind_speed_mph : float) : float :=
  1 + wind_speed_mph * 0.04.

(** Lines 90-99. *)
Definition agitation_multiplier (churn_area_percent : float) : float :=
  let churn_fraction := churn_area_percent / 100 in
  let still_fraction := 1 - churn_fraction in
  let churn_multiplier := 2.0 in
  still_fraction * 1.0 + churn_fraction * churn_multiplier.

(** How a call ends in this module.  [NotFixed] marks a value that IEEE
    arithmetic alone does not determine (a power that is not exact). *)
Inductive run (A : Type) : Type :=
| Returns (a : A)
| RaisesZeroDivisionError
| NotFixed.

Arguments Returns {A} a.
Arguments RaisesZeroDivisionError {A}.
Arguments NotFixed {A}.

Definition bind {A B : Type} (m : run A) (k : A -> run B) : run B :=
  match m with
  | Returns a => k a
  | RaisesZeroDivisionError => RaisesZeroDivisionError
  | NotFixed => NotFixed
  end.

Notation "x <- m ;; k" := (bind m (fun x => k))
  (at level 61, m at next level, right associativity) : float_scope.

Definition div (x y : float) : run float :=
  match truediv x y with
  | Some q => Returns q
  | None => RaisesZeroDivisionError
  end.

(** [10 ** y] for [y] among 0, 1, ..., 22: the power is then a double and
    the C [pow] returns it exactly.  Each product below is exact. *)
Fixpoint exact_power_of_ten (n : nat) (k p y : float) : run float :=
  match n with
  | O => NotFixed
  | S m =>
      if PrimFloat.eqb y k then Returns p
      else exact_power_of_ten m (k + 1) (p * 10) y
  end.

Definition pow10 (y : float) : run float := exact_power_of_ten 23 0 1 y.

(** Lines 15-35 on doubles. *)
Definition vapor_pressure_mmhg (temp_f : float) : run float :=
  temp_c <- div ((temp_f - 32) * 5) 9 ;;
  q <- div 1730.63 (233.426 + temp_c) ;;
  let log_p := 8.07131 - q in
  pressure_mmhg <- pow10 log_p ;;
  Returns pressure_mmhg.

Record EvapResult : Type := mkEvapResult {
  evap_inches_per_day : float;
  evap_gallons_per_day : float;
  industry_estimate_gallons : float;
  base_rate : float;
  wind_multiplier_of : float;
  agitation_multiplier_of : float;
  exposure_fraction : float;
  vp_deficit_mmhg : float
}.

(** Lines 37-130 on doubles, every product and quotient in source order. *)
Definition calculate_evaporation_rate
    (water_temp_f air_temp_f relative_humidity_percent wind_speed_mph
     surface_area_sqft churn_area_percent exposure_hours_per_day : float)
    : run EvapResult :=
  pw_water <- vapor_pressure_mmhg water_temp_f ;;
  pw_air <- vapor_pressure_mmhg air_temp_f ;;
  rh <- div relative_humidity_percent 100 ;;
  let pa_air := pw_air * rh in
  let vp_deficit := pw_water - pa_air in
  let k_base := 0.0018 in
  let base_evap_inches_per_day := k_base * vp_deficit in
  let wind_multiplier := 1 + wind_speed_mph * 0.04 in
  churn_fraction <- div churn_area_percent 100 ;;
  let still_fraction := 1 - churn_fraction in
  let churn_multiplier := 2.0 in
  let agitation_multiplier :=
    still_fraction * 1.0 + churn_fraction * churn_multiplier in
  let evap_rate_full_day :=
    base_evap_inches_per_day * wind_multiplier * agitation_multiplier in
  exposure_fraction <- div exposure_hours_per_day 24 ;;
  let evap_rate_actual := evap_rate_full_day * exposure_fraction in
  depth_ft <- div evap_rate_actual 12 ;;
  let volume_cubic_feet := surface_area_sqft * depth_ft in
  let volume_gallons := volume_cubic_feet * 7.48 in
  let industry_base := 0.35 in
  industry_ft <- div (industry_base * wind_multiplier * agitation_multiplier *
                      exposure_fraction * surface_area_sqft) 12 ;;
  let industry_estimate := industry_ft * 7.48 in
  Returns {| evap_inches_per_day := evap_rate_actual;
             evap_gallons_per_day := volume_gallons;
             industry_estimate_gallons := industry_estimate;
             base_rate := base_evap_inches_per_day;
             wind_multiplier_of := wind_multiplier;
             agitation_multiplier_of := agitation_multiplier;
             exposure_fraction := exposure_fraction;
             vp_deficit_mmhg := vp_deficit |}.

End F64.

(** * Properties *)

(** ** The runtime operations *)

Section Runtime.

Local Open Scope R_scope.

Lemma bind_Ok {A B : Type} (a : A) (k : A -> result B) :
  Py.bind (Ok a) k = k a.
Proof. reflexivity. Qed.

Lemma bind_inv {A B : Type} (m : result A) (k : A -> result B) (b : B) :
  Py.bind m k = Ok b -> exists a, m = Ok a /\ k a = Ok b.
Proof.
  destruct m as [a|e]; simpl; intros H.
  - exists a; split; [reflexivity | exact H].
  - discriminate H.
Qed.

Lemma truediv_nonzero (x y : R) : y <> 0 -> truediv x y = Ok (x / y).
Proof.
  intros Hy. unfold truediv.
  destruct (Req_dec_T y 0) as [E|_]; [contradiction | reflexivity].
Qed.

Lemma truediv_zero (x : R) : truediv x 0 = Raise ZeroDivisionError.
Proof.
  unfold truediv.
  destruct (Req_dec_T 0 0) as [_|N]; [reflexivity | now elim N].
Qed.

Lemma truediv_inv (x y q : R) : truediv x y = Ok q -> y <> 0 /\ q = x / y.
Proof.
  unfold truediv. destruct (Req_dec_T y 0) as [E|N]; intros H.
  - discriminate H.
  - injection H as <-. split; [exact N | reflexivity].
Qed.

Lemma checked_ok (v : R) : Rabs v <= float_max -> checked v = Ok v.
Proof.
  intros Hv. unfold checked.
  destruct (Rlt_dec float_max (Rabs v)) as [L|_]; [lra | reflexivity].
Qed.

Lemma checked_overflow (v : R) :
  float_max < Rabs v -> checked v = Raise OverflowError.
Proof.
  intros Hv. unfold checked.
  destruct (Rlt_dec float_max (Rabs v)) as [_|N]; [reflexivity | contradiction].
Qed.

Lemma checked_inv (v p : R) : checked v = Ok p -> p = v /\ Rabs v <= float_max.
Proof.
  unfold checked. destruct (Rlt_dec float_max (Rabs v)) as [L|N]; intros H.
  - discriminate H.
  - injection H as <-. split; [reflexivity | lra].
Qed.

Lemma two_pow_pos (n : nat) : 0 < 2 ^ n.
Proof. apply pow_lt; lra. Qed.

Lemma float_max_lower : 2 ^ 1023 <= float_max.
Proof.
  unfold float_max.
  assert (H52 : 1 <= 2 ^ 52) by (apply pow_R1_Rle; lra).
  assert (Hinv : / 2 ^ 52 <= 1).
  { rewrite <- Rinv_1. apply Rinv_le_contravar; lra. }
  pose proof (two_pow_pos 1023) as Hp.
  set (p := 2 ^ 1023) in *. set (u := / 2 ^ 52) in *. nra.
Qed.

Lemma float_max_upper : float_max < 2 ^ 1024.
Proof.
  unfold float_max.
  assert (Hinv : 0 < / 2 ^ 52) by (apply Rinv_0_lt_compat, two_pow_pos).
  pose proof (two_pow_pos 1023) as Hp.
  replace (2 ^ 1024) with (2 * 2 ^ 1023) by (symmetry; apply tech_pow_Rmult).
  set (p := 2 ^ 1023) in *. set (u := / 2 ^ 52) in *. nra.
Qed.

Lemma float_max_pos : 0 < float_max.
Proof.
  pose proof float_max_lower. pose proof (two_pow_pos 1023). lra.
Qed.

(** Powers of ten below [10 ^ 9] are far inside the double range. *)
Lemma ten_pow_9_in_range : 10 ^ 9 <= float_max.
Proof.
  apply Rle_trans with (2 ^ 36).
  - simpl; lra.
  - apply Rle_trans with (2 ^ 1023); [| exact float_max_lower].
    apply Rle_pow; [lra | lia].
Qed.

Lemma Rpower_10_in_range (y : R) : y <= 9 -> Rabs (Rpower 10 y) <= float_max.
Proof.
  intros Hy.
  rewrite Rabs_pos_eq by (left; apply exp_pos).
  apply Rle_trans with (Rpower 10 9).
  - apply Rle_Rpower; lra.
  - replace 9 with (INR 9) by (simpl; lra).
    rewrite Rpower_pow by lra. exact ten_pow_9_in_range.
Qed.

(** [10 ** y] overflows as soon as [y] reaches 1024. *)
Lemma Rpower_10_overflow (y : R) : 1024 <= y -> float_max < Rabs (Rpower 10 y).
Proof.
  intros Hy.
  rewrite Rabs_pos_eq by (left; apply exp_pos).
  apply Rlt_le_trans with (2 ^ 1024); [exact float_max_upper |].
  apply Rle_trans with (10 ^ 1024).
  - apply pow_incr; lra.
  - rewrite <- Rpower_pow by lra.
    apply Rle_Rpower; [lra |].
    rewrite INR_IZR_INZ. exact Hy.
Qed.

End Runtime.

(** ** vapor_pressure_mmhg *)

Import HotTub.

Section VaporPressure.

Local Open Scope R_scope.

Lemma antoine_reference_Rpower (T : R) :
  antoine_reference T = Rpower 10 (antoine_log10 T).
Proof. reflexivity. Qed.

Lemma antoine_reference_pos (T : R) : 0 < antoine_reference T.
Proof. apply exp_pos. Qed.

Lemma ln_10_pos : 0 < ln 10.
Proof. rewrite <- ln_1. apply ln_increasing; lra. Qed.

(** [log10] inverts the power of ten of the reference definition. *)
Lemma log10_antoine_reference (T : R) :
  log10 (antoine_reference T) = antoine_log10 T.
Proof.
  unfold log10, antoine_reference. rewrite ln_exp.
  pose proof ln_10_pos. field. lra.
Qed.

(** The function after its first division, which never fails. *)
Lemma vapor_pressure_mmhg_unfold (T : R) :
  vapor_pressure_mmhg T =
  Py.bind (truediv B (C + celsius_of_fahrenheit T))
          (fun q => checked (Rpower 10 (A - q))).
Proof.
  unfold vapor_pressure_mmhg.
  rewrite truediv_nonzero by lra. rewrite bind_Ok.
  replace ((T - 32) * 5 / 9) with (celsius_of_fahrenheit T)
    by (unfold celsius_of_fahrenheit; lra).
  unfold Py.pow.
  destruct (truediv B (C + celsius_of_fahrenheit T)) as [q|e]; simpl;
    [| reflexivity].
  destruct (checked (Rpower 10 (A - q))); reflexivity.
Qed.

(** Exactly where the helper returns, and what. *)
Lemma vapor_pressure_mmhg_defined (T : R) :
  C + celsius_of_fahrenheit T <> 0 ->
  antoine_reference T <= float_max ->
  vapor_pressure_mmhg T = Ok (antoine_reference T).
Proof.
  intros Hpole Hmax.
  rewrite vapor_pressure_mmhg_unfold, truediv_nonzero by exact Hpole.
  rewrite bind_Ok. apply checked_ok.
  change (Rpower 10 (A - B / (C + celsius_of_fahrenheit T)))
    with (antoine_reference T).
  rewrite Rabs_pos_eq by (left; apply antoine_reference_pos). exact Hmax.
Qed.

Lemma vapor_pressure_mmhg_inv (T p : R) :
  vapor_pressure_mmhg T = Ok p ->
  C + celsius_of_fahrenheit T <> 0 /\ antoine_reference T <= float_max /\
  p = antoine_reference T.
Proof.
  rewrite vapor_pressure_mmhg_unfold. intros H.
  apply bind_inv in H. destruct H as [q [Hq Hc]].
  apply truediv_inv in Hq. destruct Hq as [Hpole ->].
  apply checked_inv in Hc. destruct Hc as [-> Hmax].
  change (Rpower 10 (A - B / (C + celsius_of_fahrenheit T)))
    with (antoine_reference T) in *.
  rewrite Rabs_pos_eq in Hmax by (left; apply antoine_reference_pos).
  repeat split; assumption.
Qed.

Lemma vapor_pressure_mmhg_at_pole (T : R) :
  C + celsius_of_fahrenheit T = 0 ->
  vapor_pressure_mmhg T = Raise ZeroDivisionError.
Proof.
  intros Hpole. rewrite vapor_pressure_mmhg_unfold, Hpole, truediv_zero.
  reflexivity.
Qed.

Lemma vapor_pressure_mmhg_overflow (T : R) :
  C + celsius_of_fahrenheit T <> 0 ->
  1024 <= antoine_log10 T ->
  vapor_pressure_mmhg T = Raise OverflowError.
Proof.
  intros Hpole Hbig.
  rewrite vapor_pressure_mmhg_unfold, truediv_nonzero by exact Hpole.
  rewrite bind_Ok. apply checked_overflow, Rpower_10_overflow. exact Hbig.
Qed.

(** Above the pole the exponent stays below [A], so nothing can fail. *)
Lemma antoine_log10_below_A (T : R) :
  0 < C + celsius_of_fahrenheit T -> antoine_log10 T < A.
Proof.
  intros Hpos. unfold antoine_log10.
  assert (0 < B / (C + celsius_of_fahrenheit T)).
  { apply Rdiv_lt_0_compat; [unfold B; lra | exact Hpos]. }
  lra.
Qed.

Lemma vapor_pressure_mmhg_above_pole (T : R) :
  0 < C + celsius_of_fahrenheit T ->
  vapor_pressure_mmhg T = Ok (antoine_reference T).
Proof.
  intros Hpos. apply vapor_pressure_mmhg_defined; [lra |].
  pose proof (antoine_log10_below_A T Hpos) as Hlt.
  pose proof (Rpower_10_in_range (antoine_log10 T)) as Hr.
  rewrite Rabs_pos_eq in Hr by (left; apply exp_pos).
  rewrite antoine_reference_Rpower. apply Hr. unfold A in Hlt. lra.
Qed.

Lemma antoine_log10_increasing (T1 T2 : R) :
  0 < C + celsius_of_fahrenheit T1 -> T1 < T2 ->
  antoine_log10 T1 < antoine_log10 T2.
Proof.
  intros Hpos Hlt. unfold antoine_log10.
  assert (Hc : celsius_of_fahrenheit T1 < celsius_of_fahrenheit T2)
    by (unfold celsius_of_fahrenheit; lra).
  set (d1 := C + celsius_of_fahrenheit T1) in *.
  set (d2 := C + celsius_of_fahrenheit T2).
  assert (Hd : d1 < d2) by (unfold d1, d2; lra).
  assert (Hinv : / d2 < / d1) by (apply Rinv_lt_contravar; nra).
  unfold Rdiv. assert (HB : 0 < B) by (unfold B; lra). nra.
Qed.

Lemma antoine_reference_increasing (T1 T2 : R) :
  0 < C + celsius_of_fahrenheit T1 -> T1 < T2 ->
  antoine_reference T1 < antoine_reference T2.
Proof.
  intros Hpos Hlt. rewrite !antoine_reference_Rpower.
  apply Rpower_lt; [lra |]. now apply antoine_log10_increasing.
Qed.

End VaporPressure.

Section VaporPressureClaims.

Local Open Scope R_scope.

(** C1: [vapor_pressure_mmhg] computes the Antoine reference definition,
    [10 ^ (A - B / (C + T_celsius))] with [T_celsius = (T - 32) * 5/9] and
    the coefficients of the specification.  For every temperature above the
    pole of the formula the call returns that value, and whenever the call
    returns, its result is the reference value: a positive pressure whose
    base-ten logarithm is [A - B / (C + T_celsius)]. *)
Theorem vapor_pressure_mmhg_is_antoine (T : R) :
  (0 < C + celsius_of_fahrenheit T ->
   vapor_pressure_mmhg T = Ok (antoine_reference T)) /\
  (forall p, vapor_pressure_mmhg T = Ok p ->
     p = antoine_reference T /\ 0 < p /\
     log10 p = A - B / (C + (T - 32) * (5 / 9))).
Proof.
  split.
  - apply vapor_pressure_mmhg_above_pole.
  - intros p Hp. apply vapor_pressure_mmhg_inv in Hp.
    destruct Hp as [_ [_ ->]].
    split; [reflexivity |]. split; [apply antoine_reference_pos |].
    apply log10_antoine_reference.
Qed.

Lemma vapor_pressure_mmhg_is_antoine_witness :
  vapor_pressure_mmhg 102 = Ok (antoine_reference 102).
Proof.
  apply (proj1 (vapor_pressure_mmhg_is_antoine 102)).
  unfold C, celsius_of_fahrenheit. lra.
Defined.

(** C3: on the range where the Antoine coefficients are valid (Celsius
    value between 1 and 100) the helper returns, and a higher temperature
    gives a strictly higher saturated vapor pressure. *)
Theorem vapor_pressure_mmhg_increasing (T1 T2 : R) :
  1 <= celsius_of_fahrenheit T1 <= 100 ->
  1 <= celsius_of_fahrenheit T2 <= 100 ->
  T1 < T2 ->
  exists p1 p2,
    vapor_pressure_mmhg T1 = Ok p1 /\ vapor_pressure_mmhg T2 = Ok p2 /\
    p1 < p2.
Proof.
  intros H1 H2 Hlt.
  assert (P1 : 0 < C + celsius_of_fahrenheit T1) by (unfold C; lra).
  assert (P2 : 0 < C + celsius_of_fahrenheit T2) by (unfold C; lra).
  exists (antoine_reference T1), (antoine_reference T2).
  split; [now apply vapor_pressure_mmhg_above_pole |].
  split; [now apply vapor_pressure_mmhg_above_pole |].
  now apply antoine_reference_increasing.
Qed.

Lemma vapor_pressure_mmhg_increasing_witness :
  exists p1 p2,
    vapor_pressure_mmhg 70 = Ok p1 /\ vapor_pressure_mmhg 102 = Ok p2 /\
    p1 < p2.
Proof.
  apply (vapor_pressure_mmhg_increasing 70 102);
    unfold celsius_of_fahrenheit; lra.
Defined.

End VaporPressureClaims.

(** ** calculate_evaporation_rate *)

Ltac constant_divisions :=
  repeat (rewrite truediv_nonzero by lra; rewrite bind_Ok; cbv beta zeta).

Section Evaporation.

Local Open Scope R_scope.

(** The function as one expression of its inputs and of the two saturated
    pressures, once these are known to be returned. *)
Lemma calculate_evaporation_rate_eq
    (tw ta rh w s c e pw pa : R) :
  vapor_pressure_mmhg tw = Ok pw ->
  vapor_pressure_mmhg ta = Ok pa ->
  calculate_evaporation_rate tw ta rh w s c e =
  Ok {| evap_inches_per_day :=
          0.0018 * (pw - pa * (rh / 100)) * (1 + w * 0.04) *
          ((1 - c / 100) * 1.0 + c / 100 * 2.0) * (e / 24);
        evap_gallons_per_day :=
          s * (0.0018 * (pw - pa * (rh / 100)) * (1 + w * 0.04) *
               ((1 - c / 100) * 1.0 + c / 100 * 2.0) * (e / 24) / 12) * 7.48;
        industry_estimate_gallons :=
          0.35 * (1 + w * 0.04) * ((1 - c / 100) * 1.0 + c / 100 * 2.0) *
          (e / 24) * s / 12 * 7.48;
        base_rate := 0.0018 * (pw - pa * (rh / 100));
        wind_multiplier := 1 + w * 0.04;
        agitation_multiplier := (1 - c / 100) * 1.0 + c / 100 * 2.0;
        exposure_fraction := e / 24;
        vp_deficit_mmhg := pw - pa * (rh / 100) |}.
Proof.
  intros Hw Ha. unfold calculate_evaporation_rate.
  rewrite Hw, Ha, !bind_Ok. constant_divisions. reflexivity.
Qed.

Lemma calculate_evaporation_rate_inv (tw ta rh w s c e : R) (r : EvapResult) :
  calculate_evaporation_rate tw ta rh w s c e = Ok r ->
  exists pw pa,
    vapor_pressure_mmhg tw = Ok pw /\ vapor_pressure_mmhg ta = Ok pa.
Proof.
  unfold calculate_evaporation_rate. intros H.
  apply bind_inv in H. destruct H as [pw [Hw H]].
  apply bind_inv in H. destruct H as [pa [Ha _]].
  now exists pw, pa.
Qed.

Lemma calculate_evaporation_rate_raises (tw ta rh w s c e : R) (x : Py.exn) :
  vapor_pressure_mmhg tw = Raise x ->
  calculate_evaporation_rate tw ta rh w s c e = Raise x.
Proof.
  intros Hw. unfold calculate_evaporation_rate. rewrite Hw. reflexivity.
Qed.

End Evaporation.

Section EvaporationClaims.

Local Open Scope R_scope.

Lemma pole_is_at_minus_388 : C + celsius_of_fahrenheit (-388.1668) = 0.
Proof. unfold C, celsius_of_fahrenheit. lra. Qed.

Lemma antoine_log10_at_minus_390 :
  C + celsius_of_fahrenheit (-390) <> 0 /\ 1024 <= antoine_log10 (-390).
Proof.
  assert (Hd : C + celsius_of_fahrenheit (-390) = - (9166 / 9000))
    by (unfold C, celsius_of_fahrenheit; lra).
  split; [rewrite Hd; lra |].
  unfold antoine_log10. rewrite Hd.
  replace (B / - (9166 / 9000)) with (- (B * 9000 / 9166)) by (field; lra).
  unfold A, B. lra.
Qed.

(** C2, as stated, fails: at -390 degrees Fahrenheit the power [10 ** log_p]
    exceeds the double range and both functions raise [OverflowError]; at
    -388.1668 the divisor [C + temp_c] is zero and [vapor_pressure_mmhg]
    raises [ZeroDivisionError]. *)
Lemma core_is_not_total :
  vapor_pressure_mmhg (-390) = Raise OverflowError /\
  calculate_evaporation_rate (-390) 70 35 5 100 25 14 = Raise OverflowError /\
  vapor_pressure_mmhg (-388.1668) = Raise ZeroDivisionError /\
  ~ returns (vapor_pressure_mmhg (-390)) /\
  ~ returns (calculate_evaporation_rate (-390) 70 35 5 100 25 14).
Proof.
  destruct antoine_log10_at_minus_390 as [Hpole Hbig].
  assert (Hv : vapor_pressure_mmhg (-390) = Raise OverflowError)
    by (apply vapor_pressure_mmhg_overflow; assumption).
  assert (Hc : calculate_evaporation_rate (-390) 70 35 5 100 25 14
               = Raise OverflowError)
    by (apply calculate_evaporation_rate_raises; exact Hv).
  repeat split; try assumption.
  - apply vapor_pressure_mmhg_at_pole, pole_is_at_minus_388.
  - intros [p Hp]. rewrite Hv in Hp. discriminate Hp.
  - intros [r Hr]. rewrite Hc in Hr. discriminate Hr.
Qed.

(** C2, amended: [vapor_pressure_mmhg] returns exactly when [C + T_celsius]
    is not zero and the power [10 ^ (A - B / (C + T_celsius))] does not
    exceed the largest finite double, which covers every temperature above
    the pole at -388.1668 degrees Fahrenheit; [calculate_evaporation_rate]
    returns exactly when its two calls of the helper return, whatever the
    five other inputs are.  Nothing is validated or flagged. *)
Theorem core_returns_iff (tw ta rh w s c e : R) :
  (returns (vapor_pressure_mmhg tw) <->
     C + celsius_of_fahrenheit tw <> 0 /\ antoine_reference tw <= float_max) /\
  (0 < C + celsius_of_fahrenheit tw -> returns (vapor_pressure_mmhg tw)) /\
  (returns (calculate_evaporation_rate tw ta rh w s c e) <->
     returns (vapor_pressure_mmhg tw) /\ returns (vapor_pressure_mmhg ta)).
Proof.
  split; [| split].
  - split.
    + intros [p Hp]. apply vapor_pressure_mmhg_inv in Hp. tauto.
    + intros [Hpole Hmax]. exists (antoine_reference tw).
      now apply vapor_pressure_mmhg_defined.
  - intros Hpos. exists (antoine_reference tw).
    now apply vapor_pressure_mmhg_above_pole.
  - split.
    + intros [r Hr]. apply calculate_evaporation_rate_inv in Hr.
      destruct Hr as [pw [pa [Hw Ha]]]. split; [now exists pw | now exists pa].
    + intros [[pw Hw] [pa Ha]].
      rewrite (calculate_evaporation_rate_eq tw ta rh w s c e pw pa Hw Ha).
      eexists; reflexivity.
Qed.

Lemma core_returns_iff_witness :
  returns (vapor_pressure_mmhg 102) /\
  returns (calculate_evaporation_rate 102 70 35 5 100 25 14).
Proof.
  pose proof (core_returns_iff 102 70 35 5 100 25 14) as [_ [Hw Hc]].
  pose proof (core_returns_iff 70 70 35 5 100 25 14) as [_ [Ha _]].
  assert (Pw : returns (vapor_pressure_mmhg 102))
    by (apply Hw; unfold C, celsius_of_fahrenheit; lra).
  assert (Pa : returns (vapor_pressure_mmhg 70))
    by (apply Ha; unfold C, celsius_of_fahrenheit; lra).
  split; [exact Pw | apply Hc; split; assumption].
Defined.

(** Sign of the evaporation rate and volume under a negative deficit. *)
Lemma negative_deficit_signs (d w s c e : R) :
  d < 0 -> 0 <= w -> 0 <= c <= 100 -> 0 < e -> 0 < s ->
  let rate := 0.0018 * d * (1 + w * 0.04) *
              ((1 - c / 100) * 1.0 + c / 100 * 2.0) * (e / 24) in
  rate < 0 /\ s * (rate / 12) * 7.48 < 0.
Proof.
  intros Hd Hwind Hc He Hs.
  assert (Hwm : 1 <= 1 + w * 0.04) by lra.
  assert (Ham : 1 <= (1 - c / 100) * 1.0 + c / 100 * 2.0) by lra.
  assert (Hef : 0 < e / 24) by lra.
  set (wm := 1 + w * 0.04) in *.
  set (am := (1 - c / 100) * 1.0 + c / 100 * 2.0) in *.
  set (ef := e / 24) in *.
  assert (Hb : 0.0018 * d < 0) by lra.
  assert (H1 : 0.0018 * d * wm < 0) by nra.
  assert (H2 : 0.0018 * d * wm * am < 0) by nra.
  assert (H3 : 0.0018 * d * wm * am * ef < 0) by nra.
  cbv zeta. split; [exact H3 |].
  set (rate := 0.0018 * d * wm * am * ef) in *.
  assert (H4 : rate / 12 < 0) by lra.
  assert (H5 : s * (rate / 12) < 0) by nra.
  lra.
Qed.

(** C4: the deficit is the saturated pressure at the water surface minus the
    actual vapor pressure of the air, unclamped.  When the air's actual
    vapor pressure exceeds the water-surface pressure, with wind speed at
    least 0, churn percentage in [0, 100], positive exposure hours and
    positive surface area, the call returns strictly negative
    [evap_inches_per_day] and [evap_gallons_per_day]. *)
Theorem negative_deficit_gives_negative_evaporation
    (tw ta rh w s c e pw pa : R) :
  vapor_pressure_mmhg tw = Ok pw ->
  vapor_pressure_mmhg ta = Ok pa ->
  pw < pa * (rh / 100) ->
  0 <= w -> 0 <= c <= 100 -> 0 < e -> 0 < s ->
  exists r,
    calculate_evaporation_rate tw ta rh w s c e = Ok r /\
    vp_deficit_mmhg r = pw - pa * (rh / 100) /\
    vp_deficit_mmhg r < 0 /\
    evap_inches_per_day r < 0 /\
    evap_gallons_per_day r < 0.
Proof.
  intros Hw Ha Hdef Hwind Hc He Hs.
  eexists. split; [apply (calculate_evaporation_rate_eq _ _ _ _ _ _ _ _ _ Hw Ha) |].
  cbn [vp_deficit_mmhg evap_inches_per_day evap_gallons_per_day].
  assert (Hd : pw - pa * (rh / 100) < 0) by lra.
  destruct (negative_deficit_signs _ w s c e Hd Hwind Hc He Hs) as [Hr Hg].
  split; [reflexivity |]. split; [exact Hd |]. split; [exact Hr | exact Hg].
Qed.

Lemma returns_above_pole (T : R) :
  0 < C + celsius_of_fahrenheit T -> returns (vapor_pressure_mmhg T).
Proof.
  intros Hpos. exists (antoine_reference T).
  now apply vapor_pressure_mmhg_above_pole.
Qed.

Lemma returns_at_102 : returns (vapor_pressure_mmhg 102).
Proof. apply returns_above_pole. unfold C, celsius_of_fahrenheit. lra. Qed.

Lemma returns_at_70 : returns (vapor_pressure_mmhg 70).
Proof. apply returns_above_pole. unfold C, celsius_of_fahrenheit. lra. Qed.

Lemma negative_deficit_gives_negative_evaporation_witness :
  exists r,
    calculate_evaporation_rate 50 100 100 5 100 25 14 = Ok r /\
    vp_deficit_mmhg r = antoine_reference 50 - antoine_reference 100 * (100 / 100) /\
    vp_deficit_mmhg r < 0 /\
    evap_inches_per_day r < 0 /\
    evap_gallons_per_day r < 0.
Proof.
  assert (P50 : 0 < C + celsius_of_fahrenheit 50)
    by (unfold C, celsius_of_fahrenheit; lra).
  assert (P100 : 0 < C + celsius_of_fahrenheit 100)
    by (unfold C, celsius_of_fahrenheit; lra).
  apply (negative_deficit_gives_negative_evaporation 50 100 100 5 100 25 14);
    try lra.
  - now apply vapor_pressure_mmhg_above_pole.
  - now apply vapor_pressure_mmhg_above_pole.
  - assert (antoine_reference 50 < antoine_reference 100)
      by (apply antoine_reference_increasing; [exact P50 | lra]).
    lra.
Defined.

(** C5: the returned [wind_multiplier] is [1 + 0.04 * wind_speed_mph] for
    every wind speed, with no ceiling: it is exactly 1 at 0 mph, 1.20 at
    5 mph and 1.40 at 10 mph, and exceeds any bound for a large enough
    wind speed. *)
Theorem wind_multiplier_is_linear (tw ta rh w s c e : R) :
  returns (vapor_pressure_mmhg tw) ->
  returns (vapor_pressure_mmhg ta) ->
  exists r,
    calculate_evaporation_rate tw ta rh w s c e = Ok r /\
    wind_multiplier r = 1 + 0.04 * w /\
    (w = 0 -> wind_multiplier r = 1.0) /\
    (w = 5 -> wind_multiplier r = 1.20) /\
    (w = 10 -> wind_multiplier r = 1.40) /\
    (forall bound, 25 * bound <= w -> bound < wind_multiplier r).
Proof.
  intros [pw Hw] [pa Ha].
  eexists. split; [apply (calculate_evaporation_rate_eq _ _ _ _ _ _ _ _ _ Hw Ha) |].
  cbn [wind_multiplier].
  repeat split; intros; subst; lra.
Qed.

Lemma wind_multiplier_is_linear_witness :
  exists r,
    calculate_evaporation_rate 102 70 35 5 100 25 14 = Ok r /\
    wind_multiplier r = 1.20.
Proof.
  destruct (wind_multiplier_is_linear 102 70 35 5 100 25 14
              returns_at_102 returns_at_70) as [r [Hr [_ [_ [H5 _]]]]].
  exists r. split; [exact Hr | apply H5; reflexivity].
Defined.

(** C6: the returned [agitation_multiplier] is the blend
    [(1 - c/100) * 1.0 + (c/100) * 2.0] of the still-water and churned-water
    multipliers for every churn percentage [c]; it is exactly 2.0 at
    [c = 100] and exactly 1.0 at [c = 0]. *)
Theorem agitation_multiplier_is_blend (tw ta rh w s c e : R) :
  returns (vapor_pressure_mmhg tw) ->
  returns (vapor_pressure_mmhg ta) ->
  exists r,
    calculate_evaporation_rate tw ta rh w s c e = Ok r /\
    agitation_multiplier r = (1 - c / 100) * 1.0 + (c / 100) * 2.0 /\
    (c = 100 -> agitation_multiplier r = 2.0) /\
    (c = 0 -> agitation_multiplier r = 1.0).
Proof.
  intros [pw Hw] [pa Ha].
  eexists. split; [apply (calculate_evaporation_rate_eq _ _ _ _ _ _ _ _ _ Hw Ha) |].
  cbn [agitation_multiplier].
  repeat split; intros; subst; lra.
Qed.

Lemma agitation_multiplier_is_blend_witness :
  exists r,
    calculate_evaporation_rate 102 70 35 5 100 100 14 = Ok r /\
    agitation_multiplier r = 2.0.
Proof.
  destruct (agitation_multiplier_is_blend 102 70 35 5 100 100 14
              returns_at_102 returns_at_70) as [r [Hr [_ [H100 _]]]].
  exists r. split; [exact Hr | apply H100; reflexivity].
Defined.

(** C8, amended: in exact real arithmetic the primary and the industry
    estimate are the base rate (deficit times 0.0018, against the fixed
    0.35) times the same wind, agitation, exposure and area factors, so that
    [industry_estimate_gallons * base_rate = evap_gallons_per_day * 0.35].
    The two estimates multiply these factors in different orders, and on
    doubles the identity is not exact in general. *)
Theorem industry_estimate_relation (tw ta rh w s c e : R) :
  returns (vapor_pressure_mmhg tw) ->
  returns (vapor_pressure_mmhg ta) ->
  exists r,
    calculate_evaporation_rate tw ta rh w s c e = Ok r /\
    industry_estimate_gallons r * base_rate r = evap_gallons_per_day r * 0.35 /\
    base_rate r = 0.0018 * vp_deficit_mmhg r /\
    (let factors := wind_multiplier r * agitation_multiplier r *
                    exposure_fraction r * s / 12 * 7.48 in
     evap_gallons_per_day r = base_rate r * factors /\
     industry_estimate_gallons r = 0.35 * factors).
Proof.
  intros [pw Hw] [pa Ha].
  eexists. split; [apply (calculate_evaporation_rate_eq _ _ _ _ _ _ _ _ _ Hw Ha) |].
  cbn [industry_estimate_gallons base_rate evap_gallons_per_day
       vp_deficit_mmhg wind_multiplier agitation_multiplier exposure_fraction].
  repeat split; field.
Qed.

Lemma industry_estimate_relation_witness :
  exists r,
    calculate_evaporation_rate 102 70 35 5 100 25 14 = Ok r /\
    industry_estimate_gallons r * base_rate r = evap_gallons_per_day r * 0.35.
Proof.
  destruct (industry_estimate_relation 102 70 35 5 100 25 14
              returns_at_102 returns_at_70) as [r [Hr [Hrel _]]].
  exists r. split; [exact Hr | exact Hrel].
Defined.

End EvaporationClaims.

(** ** main of hot_tub_evaporation.py *)

Section Main.

Local Open Scope R_scope.

Lemma days_to_lose_one_inch_positive (x : R) :
  0 < x -> days_to_lose_one_inch x = Ok (Finite (1 / x)).
Proof.
  intros Hx. unfold days_to_lose_one_inch.
  destruct (Rlt_dec 0 x) as [_|N]; [| contradiction].
  rewrite truediv_nonzero by lra. reflexivity.
Qed.

Lemma days_to_lose_one_inch_nonpositive (x : R) :
  x <= 0 -> days_to_lose_one_inch x = Ok Infinity.
Proof.
  intros Hx. unfold days_to_lose_one_inch.
  destruct (Rlt_dec 0 x) as [L|_]; [lra | reflexivity].
Qed.

Lemma days_to_lose_one_inch_returns (x : R) :
  returns (days_to_lose_one_inch x).
Proof.
  destruct (Rlt_dec 0 x) as [L|N].
  - eexists. now apply days_to_lose_one_inch_positive.
  - eexists. apply days_to_lose_one_inch_nonpositive. lra.
Qed.

(** [main] once its square and its model call are known to return. *)
Lemma main_eq (d tw e ta rh w c sq : R) (r : EvapResult) (days : xfloat) :
  pow_nat (d / 2) 2 = Ok sq ->
  calculate_evaporation_rate tw ta rh w (PI * sq) c e = Ok r ->
  days_to_lose_one_inch (evap_inches_per_day r) = Ok days ->
  main d tw e ta rh w c =
  Ok {| surface_area := PI * sq;
        results := r;
        weekly_loss := evap_gallons_per_day r * 7;
        monthly_loss := evap_gallons_per_day r * 30;
        days_per_inch := days |}.
Proof.
  intros Hsq Hr Hdays. unfold main.
  rewrite truediv_nonzero by lra. rewrite bind_Ok, Hsq, bind_Ok. cbv zeta.
  rewrite Hr, bind_Ok, Hdays. reflexivity.
Qed.

Lemma main_inv (d tw e ta rh w c : R) (rep : Report) :
  main d tw e ta rh w c = Ok rep ->
  exists sq,
    pow_nat (d / 2) 2 = Ok sq /\
    calculate_evaporation_rate tw ta rh w (PI * sq) c e = Ok (results rep) /\
    surface_area rep = PI * sq /\
    days_to_lose_one_inch (evap_inches_per_day (results rep))
      = Ok (days_per_inch rep).
Proof.
  unfold main. rewrite truediv_nonzero by lra. rewrite bind_Ok. intros H.
  apply bind_inv in H. destruct H as [sq [Hsq H]]. cbv zeta in H.
  apply bind_inv in H. destruct H as [r [Hr H]].
  apply bind_inv in H. destruct H as [days [Hdays H]].
  injection H as <-. exists sq. cbn. repeat split; assumption.
Qed.

Lemma pow_nat_2_inv (x sq : R) :
  pow_nat x 2 = Ok sq -> sq = x * x /\ x * x <= float_max.
Proof.
  unfold pow_nat. intros H. apply checked_inv in H. destruct H as [-> Hmax].
  assert (E : x ^ 2 = x * x) by (simpl; ring).
  rewrite E in *. rewrite Rabs_pos_eq in Hmax by nra.
  split; [reflexivity | exact Hmax].
Qed.

Lemma pow_nat_2_ok (x : R) : x * x <= float_max -> pow_nat x 2 = Ok (x * x).
Proof.
  intros Hmax. unfold pow_nat.
  assert (E : x ^ 2 = x * x) by (simpl; ring).
  rewrite E. apply checked_ok. rewrite Rabs_pos_eq by nra. exact Hmax.
Qed.

Lemma main_returns (d tw e ta rh w c : R) :
  (d / 2) * (d / 2) <= float_max ->
  returns (vapor_pressure_mmhg tw) ->
  returns (vapor_pressure_mmhg ta) ->
  returns (main d tw e ta rh w c).
Proof.
  intros Hd [pw Hw] [pa Ha].
  destruct (days_to_lose_one_inch_returns
              (0.0018 * (pw - pa * (rh / 100)) * (1 + w * 0.04) *
               ((1 - c / 100) * 1.0 + c / 100 * 2.0) * (e / 24)))
    as [days Hdays].
  eexists. eapply main_eq.
  - now apply pow_nat_2_ok.
  - apply (calculate_evaporation_rate_eq _ _ _ _ _ _ _ _ _ Hw Ha).
  - exact Hdays.
Qed.

Lemma small_square_in_range (x : R) : x * x <= 10 ^ 9 -> x * x <= float_max.
Proof. intros H. pose proof ten_pow_9_in_range. lra. Qed.

End Main.

Section MainClaims.

Local Open Scope R_scope.

(** C7: the surface area is [pi * (diameter / 2) ^ 2] and the gallons-per-day
    output is linear in the surface area: with the six other inputs fixed,
    scaling the area scales the gallons by the same factor, and doubling the
    diameter quadruples both [surface_area] and [evap_gallons_per_day]. *)
Theorem doubling_diameter_quadruples (d tw e ta rh w c : R) :
  (forall k s r,
     calculate_evaporation_rate tw ta rh w s c e = Ok r ->
     exists r',
       calculate_evaporation_rate tw ta rh w (k * s) c e = Ok r' /\
       evap_gallons_per_day r' = k * evap_gallons_per_day r) /\
  (forall rep2,
     main (2 * d) tw e ta rh w c = Ok rep2 ->
     exists rep1,
       main d tw e ta rh w c = Ok rep1 /\
       surface_area rep1 = PI * (d / 2) ^ 2 /\
       surface_area rep2 = 4 * surface_area rep1 /\
       evap_gallons_per_day (results rep2)
         = 4 * evap_gallons_per_day (results rep1)).
Proof.
  split.
  - intros k s r Hr.
    destruct (calculate_evaporation_rate_inv _ _ _ _ _ _ _ _ Hr)
      as [pw [pa [Hw Ha]]].
    rewrite (calculate_evaporation_rate_eq _ _ _ _ _ _ _ _ _ Hw Ha) in Hr.
    injection Hr as <-.
    eexists. split; [apply (calculate_evaporation_rate_eq _ _ _ _ _ _ _ _ _ Hw Ha) |].
    cbn [evap_gallons_per_day]. ring.
  - intros rep2 H2.
    apply main_inv in H2. destruct H2 as [sq2 [Hsq2 [Hr2 [Ha2 _]]]].
    apply pow_nat_2_inv in Hsq2. destruct Hsq2 as [-> Hmax].
    destruct (calculate_evaporation_rate_inv _ _ _ _ _ _ _ _ Hr2)
      as [pw [pa [Hw Ha]]].
    rewrite (calculate_evaporation_rate_eq _ _ _ _ _ _ _ _ _ Hw Ha) in Hr2.
    injection Hr2 as Hres.
    assert (Hsmall : d / 2 * (d / 2) <= float_max) by nra.
    destruct (days_to_lose_one_inch_returns
                (0.0018 * (pw - pa * (rh / 100)) * (1 + w * 0.04) *
                 ((1 - c / 100) * 1.0 + c / 100 * 2.0) * (e / 24)))
      as [days Hdays].
    eexists. split.
    + eapply main_eq.
      * now apply pow_nat_2_ok.
      * apply (calculate_evaporation_rate_eq _ _ _ _ _ _ _ _ _ Hw Ha).
      * exact Hdays.
    + rewrite Ha2, <- Hres. cbn. repeat split; field.
Qed.

Lemma doubling_diameter_quadruples_witness :
  exists rep2 rep1,
    main (2 * 12) 102 14 70 35 5 25 = Ok rep2 /\
    main 12 102 14 70 35 5 25 = Ok rep1 /\
    surface_area rep2 = 4 * surface_area rep1 /\
    evap_gallons_per_day (results rep2)
      = 4 * evap_gallons_per_day (results rep1).
Proof.
  assert (Hret : returns (main (2 * 12) 102 14 70 35 5 25)).
  { apply main_returns; [| exact returns_at_102 | exact returns_at_70].
    apply small_square_in_range. simpl. lra. }
  destruct Hret as [rep2 H2].
  destruct (proj2 (doubling_diameter_quadruples 12 102 14 70 35 5 25) rep2 H2)
    as [rep1 [H1 [_ [Harea Hgal]]]].
  exists rep2, rep1. repeat split; assumption.
Defined.

(** C10: the days-per-inch figure of [main] is guarded: whenever the surface
    area and the model call return, [main] returns too, with
    [1 / evap_inches_per_day] when that rate is positive and infinity when
    it is zero or negative; the guarded expression never raises. *)
Theorem days_per_inch_is_guarded
    (d tw e ta rh w c sq : R) (r : EvapResult) :
  pow_nat (d / 2) 2 = Ok sq ->
  calculate_evaporation_rate tw ta rh w (PI * sq) c e = Ok r ->
  (forall x, returns (days_to_lose_one_inch x)) /\
  exists rep,
    main d tw e ta rh w c = Ok rep /\
    results rep = r /\
    (0 < evap_inches_per_day r ->
     days_per_inch rep = Finite (1 / evap_inches_per_day r)) /\
    (evap_inches_per_day r <= 0 -> days_per_inch rep = Infinity).
Proof.
  intros Hsq Hr. split; [exact days_to_lose_one_inch_returns |].
  destruct (Rlt_dec 0 (evap_inches_per_day r)) as [L|N].
  - eexists. split; [| split; [| split]].
    + eapply main_eq; [exact Hsq | exact Hr |].
      now apply days_to_lose_one_inch_positive.
    + reflexivity.
    + intros _. reflexivity.
    + intros Hle. lra.
  - eexists. split; [| split; [| split]].
    + eapply main_eq; [exact Hsq | exact Hr |].
      apply days_to_lose_one_inch_nonpositive. lra.
    + reflexivity.
    + intros Hpos. contradiction.
    + intros _. reflexivity.
Qed.

Lemma days_per_inch_is_guarded_witness :
  exists rep,
    main 12 50 14 100 100 5 25 = Ok rep /\
    evap_inches_per_day (results rep) < 0 /\
    days_per_inch rep = Infinity.
Proof.
  assert (P50 : 0 < C + celsius_of_fahrenheit 50)
    by (unfold C, celsius_of_fahrenheit; lra).
  assert (P100 : 0 < C + celsius_of_fahrenheit 100)
    by (unfold C, celsius_of_fahrenheit; lra).
  pose proof (vapor_pressure_mmhg_above_pole 50 P50) as Hw.
  pose proof (vapor_pressure_mmhg_above_pole 100 P100) as Ha.
  assert (Hsq : pow_nat (12 / 2) 2 = Ok (12 / 2 * (12 / 2))).
  { apply pow_nat_2_ok, small_square_in_range. simpl. lra. }
  pose proof (calculate_evaporation_rate_eq 50 100 100 5
                (PI * (12 / 2 * (12 / 2))) 25 14 _ _ Hw Ha) as Hr.
  destruct (days_per_inch_is_guarded 12 50 14 100 100 5 25 _ _ Hsq Hr)
    as [_ [rep [Hmain [Hres [_ Hinf]]]]].
  assert (Hneg : evap_inches_per_day (results rep) < 0).
  { rewrite Hres. cbn [evap_inches_per_day].
    assert (Hd : antoine_reference 50 - antoine_reference 100 * (100 / 100) < 0).
    { assert (antoine_reference 50 < antoine_reference 100)
        by (apply antoine_reference_increasing; [exact P50 | lra]).
      lra. }
    pose proof PI_RGT_0 as Hpi.
    assert (Hs : 0 < PI * (12 / 2 * (12 / 2))) by nra.
    destruct (negative_deficit_signs _ 5 (PI * (12 / 2 * (12 / 2))) 25 14 Hd)
      as [Hrate _]; lra. }
  exists rep. split; [exact Hmain |]. split; [exact Hneg |].
  apply Hinf. rewrite Hres in Hneg. lra.
Defined.

End MainClaims.

(** ** weather.py: request failures *)

Section WeatherClaims.

Import Weather.
Local Open Scope string_scope.
Local Open Scope Z_scope.

Variable w : World.
Variable api_key : string.

Lemma get_weather_network_error (tick : nat) (city name msg : string) :
  http_get w tick (request_for api_key city) = NetworkError name msg ->
  get_weather w api_key tick city =
  (["Error fetching weather data: " ++ msg], Return PNone).
Proof.
  intros H. unfold get_weather. rewrite H.
  reflexivity.
Qed.

Lemma get_weather_interrupted (tick : nat) (city name msg : string) :
  http_get w tick (request_for api_key city) = Interrupted name msg ->
  get_weather w api_key tick city = ([], Raised (builtin name msg)).
Proof.
  intros H. unfold get_weather. rewrite H.
  reflexivity.
Qed.

Lemma get_weather_http_error (tick : nat) (city : string) (r : Response) :
  http_get w tick (request_for api_key city) = Delivered r ->
  400 <= status_code r < 600 ->
  get_weather w api_key tick city =
  ([if status_code r =? 404
    then "Error: City '" ++ city ++ "' not found."
    else "HTTP Error: " ++ http_error_text r], Return PNone).
Proof.
  intros H [Hlo Hhi]. unfold get_weather. rewrite H.
  unfold raise_for_status.
  apply Z.leb_le in Hlo. apply Z.ltb_lt in Hhi. rewrite Hlo, Hhi.
  cbn -[String.append]. destruct (status_code r =? 404); reflexivity.
Qed.

Lemma get_weather_delivered (tick : nat) (city : string) (r : Response) :
  http_get w tick (request_for api_key city) = Delivered r ->
  ~ (400 <= status_code r < 600) ->
  get_weather w api_key tick city =
  try_except (lift (json r)) (get_weather_handler city (Some r)).
Proof.
  intros H Hok. unfold get_weather. rewrite H.
  unfold raise_for_status.
  destruct (400 <=? status_code r) eqn:Hlo;
    destruct (status_code r <? 600) eqn:Hhi; cbn [andb];
    try (destruct (json r); reflexivity).
  exfalso. apply Hok. split; [now apply Z.leb_le | now apply Z.ltb_lt].
Qed.

(** What escapes [get_weather] is never a [RequestException]. *)
Lemma get_weather_escape (tick : nat) (city : string) (e : exn) :
  snd (get_weather w api_key tick city) = Raised e ->
  is_RequestException e = false.
Proof.
  destruct (http_get w tick (request_for api_key city)) as [r|name msg|name msg] eqn:H.
  - destruct (Z_le_dec 400 (status_code r)) as [Hlo|Hlo];
      [destruct (Z_lt_dec (status_code r) 600) as [Hhi|Hhi] |].
    + rewrite (get_weather_http_error _ _ _ H (conj Hlo Hhi)). discriminate.
    + rewrite (get_weather_delivered _ _ _ H) by lia.
      destruct (json r) as [v|e'] eqn:Hj; cbn; [discriminate |].
      unfold get_weather_handler.
      destruct (is_HTTPError e') eqn:E1.
      * destruct (status_code r =? 404); cbn; discriminate.
      * destruct (is_RequestException e') eqn:E2; cbn; [discriminate |].
        intros Heq. injection Heq as <-. exact E2.
    + rewrite (get_weather_delivered _ _ _ H) by lia.
      destruct (json r) as [v|e'] eqn:Hj; cbn; [discriminate |].
      unfold get_weather_handler.
      destruct (is_HTTPError e') eqn:E1.
      * destruct (status_code r =? 404); cbn; discriminate.
      * destruct (is_RequestException e') eqn:E2; cbn; [discriminate |].
        intros Heq. injection Heq as <-. exact E2.
  - rewrite (get_weather_network_error _ _ _ _ H). discriminate.
  - rewrite (get_weather_interrupted _ _ _ _ H). cbn.
    intros Heq. injection Heq as <-. reflexivity.
Qed.

Lemma get_weather_json_error (tick : nat) (city : string) (r : Response)
    (e : exn) :
  http_get w tick (request_for api_key city) = Delivered r ->
  ~ (400 <= status_code r < 600) ->
  json r = Raised e ->
  is_RequestException e = true ->
  exists line, get_weather w api_key tick city = ([line], Return PNone).
Proof.
  intros H Hok Hj He. rewrite (get_weather_delivered _ _ _ H Hok), Hj.
  cbn. unfold get_weather_handler.
  destruct (is_HTTPError e).
  - destruct (status_code r =? 404); eexists; reflexivity.
  - rewrite He. eexists; reflexivity.
Qed.

(** After a failed lookup the loop goes on with the next input line. *)
Lemma run_loop_continues (tick : nat) (line : string) (rest : list string)
    (out : list string) :
  existsb (String.eqb (lower (strip line))) ["quit"; "exit"] = false ->
  strip line <> "" ->
  get_weather w api_key tick (strip line) = (out, Return PNone) ->
  run_loop w api_key tick (line :: rest) =
  ((out ++ fst (run_loop w api_key (S tick) rest))%list,
   snd (run_loop w api_key (S tick) rest)).
Proof.
  intros Hquit Hne Hget. cbn [run_loop]. cbv zeta. rewrite Hquit.
  destruct (String.eqb_spec (strip line) "") as [E|_]; [contradiction |].
  rewrite Hget. unfold Weather.bind, display_weather. cbn [truthy negb ret].
  destruct (run_loop w api_key (S tick) rest) as [out' r'].
  reflexivity.
Qed.

(** C9: [get_weather] lets no HTTP or network exception escape.  For a
    response with status 404 it prints the city-not-found message; for any
    other 4xx or 5xx status, for a network exception raised by
    [requests.get] and for a [RequestException] raised while decoding the
    body it prints one error message; in each of these cases it returns
    [None], and the loop of [run] then goes on with the next input line. *)
Theorem get_weather_handles_request_failures (tick : nat) (city : string) :
  (forall e, snd (get_weather w api_key tick city) = Raised e ->
     is_RequestException e = false) /\
  (forall r, http_get w tick (request_for api_key city) = Delivered r ->
     status_code r = 404 ->
     get_weather w api_key tick city =
     (["Error: City '" ++ city ++ "' not found."], Return PNone)) /\
  (forall r, http_get w tick (request_for api_key city) = Delivered r ->
     400 <= status_code r < 600 -> status_code r <> 404 ->
     get_weather w api_key tick city =
     (["HTTP Error: " ++ http_error_text r], Return PNone)) /\
  (forall name msg,
     http_get w tick (request_for api_key city) = NetworkError name msg ->
     get_weather w api_key tick city =
     (["Error fetching weather data: " ++ msg], Return PNone)) /\
  (forall r e, http_get w tick (request_for api_key city) = Delivered r ->
     ~ (400 <= status_code r < 600) ->
     json r = Raised e -> is_RequestException e = true ->
     exists line, get_weather w api_key tick city = ([line], Return PNone)) /\
  (forall line rest out,
     strip line = city ->
     existsb (String.eqb (lower city)) ["quit"; "exit"] = false ->
     city <> "" ->
     get_weather w api_key tick city = (out, Return PNone) ->
     run_loop w api_key tick (line :: rest) =
     ((out ++ fst (run_loop w api_key (S tick) rest))%list,
      snd (run_loop w api_key (S tick) rest))).
Proof.
  split; [| split; [| split; [| split; [| split]]]].
  - apply get_weather_escape.
  - intros r H H404.
    rewrite (get_weather_http_error _ _ _ H) by lia.
    rewrite H404. reflexivity.
  - intros r H Hrange Hne.
    rewrite (get_weather_http_error _ _ _ H Hrange).
    apply Z.eqb_neq in Hne. rewrite Hne. reflexivity.
  - intros name msg H. now apply get_weather_network_error with name.
  - intros r e H Hok Hj He. now apply get_weather_json_error with r e.
  - intros line rest out <- Hquit Hne Hget. now apply run_loop_continues.
Qed.

End WeatherClaims.

Lemma get_weather_handles_request_failures_witness :
  Weather.get_weather Weather.world_without_cities "key" 0 "Atlantis" =
  (["Error: City 'Atlantis' not found."%string],
   Weather.Return Weather.PNone).
Proof.
  apply (proj1 (proj2 (get_weather_handles_request_failures
                         Weather.world_without_cities "key" 0 "Atlantis"))
           {| Weather.status_code := 404;
              Weather.http_error_text := "404 Client Error: Not Found";
              Weather.json :=
                Weather.Return (Weather.PDict [("cod"%string, Weather.PStr "404")]) |});
    reflexivity.
Defined.

(** The loop survives the failed lookup and reads the next line. *)
Example run_survives_unknown_city :
  Weather.run Weather.world_without_cities "key" [" Atlantis "; "quit"]%string =
  (["Welcome to the Weather App!";
    "Type 'quit' or 'exit' to close the app." ++ Weather.nl;
    "Error: City 'Atlantis' not found.";
    "Thank you for using Weather App. Goodbye!"]%string,
   Weather.Return tt).
Proof. reflexivity. Qed.

(** ** Binary64 cross-checks of the exact values *)

Section Binary64.

#[local] Set Warnings "-inexact-float".
Local Open Scope float_scope.

(** The multipliers named in the specification are exact in doubles too. *)
Lemma f64_wind_multiplier_values :
  F64.wind_multiplier 0 = 1 /\
  F64.wind_multiplier 5 = 1.2 /\
  F64.wind_multiplier 10 = 1.4.
Proof. repeat split; vm_compute; reflexivity. Qed.

Lemma f64_agitation_multiplier_values :
  F64.agitation_multiplier 0 = 1 /\
  F64.agitation_multiplier 100 = 2 /\
  F64.agitation_multiplier 25 = 1.25.
Proof. repeat split; vm_compute; reflexivity. Qed.

(** The double next above -388.1668 makes [C + temp_c] exactly zero. *)
Lemma f64_zero_division_at_pole :
  F64.log_p (-388.16679999999997) = None.
Proof. vm_compute. reflexivity. Qed.

(** At -390 the exponent passed to [10 ** log_p] is beyond 308, the largest
    power of ten a double holds. *)
Lemma f64_exponent_at_minus_390 :
  exists q, F64.log_p (-390) = Some q /\ PrimFloat.ltb 1707 q = true.
Proof. eexists. split; vm_compute; reflexivity. Qed.

End Binary64.

(** * Further properties of hot_tub_evaporation.py *)

Section EvaporationBehaviour.

Local Open Scope R_scope.

(** The record returned for given saturated pressures, by field. *)
Ltac model_fields :=
  cbn [evap_inches_per_day evap_gallons_per_day industry_estimate_gallons
       base_rate wind_multiplier agitation_multiplier exposure_fraction
       vp_deficit_mmhg].

(** X1: an uncovered tub (24 hours of exposure) has exposure fraction 1 and
    loses at the full-day rate, base rate times wind times agitation
    multiplier; a tub that is never uncovered (0 hours) loses nothing, by
    either estimate. *)
Theorem full_and_zero_exposure (tw ta rh w s c : R) :
  returns (vapor_pressure_mmhg tw) ->
  returns (vapor_pressure_mmhg ta) ->
  exists r24 r0,
    calculate_evaporation_rate tw ta rh w s c 24 = Ok r24 /\
    calculate_evaporation_rate tw ta rh w s c 0 = Ok r0 /\
    exposure_fraction r24 = 1 /\
    evap_inches_per_day r24
      = base_rate r24 * wind_multiplier r24 * agitation_multiplier r24 /\
    exposure_fraction r0 = 0 /\
    evap_inches_per_day r0 = 0 /\
    evap_gallons_per_day r0 = 0 /\
    industry_estimate_gallons r0 = 0.
Proof.
  intros [pw Hw] [pa Ha].
  do 2 eexists.
  split; [apply (calculate_evaporation_rate_eq _ _ _ _ _ _ _ _ _ Hw Ha) |].
  split; [apply (calculate_evaporation_rate_eq _ _ _ _ _ _ _ _ _ Hw Ha) |].
  model_fields. repeat split; field.
Qed.

Lemma full_and_zero_exposure_witness :
  exists r24 r0,
    calculate_evaporation_rate 102 70 35 5 100 25 24 = Ok r24 /\
    calculate_evaporation_rate 102 70 35 5 100 25 0 = Ok r0 /\
    exposure_fraction r24 = 1 /\
    evap_gallons_per_day r0 = 0.
Proof.
  destruct (full_and_zero_exposure 102 70 35 5 100 25
              returns_at_102 returns_at_70)
    as [r24 [r0 [H24 [H0 [Hf [_ [_ [_ [Hg _]]]]]]]]].
  exists r24, r0. repeat split; assumption.
Defined.

(** X2: for a tub at least as warm as the air, with humidity between 0 and 100
    percent (and either warmer water or humidity below 100), the deficit,
    the rate and the volume are strictly positive. *)
Theorem warm_tub_loses_water (tw ta rh w s c e : R) :
  0 < C + celsius_of_fahrenheit ta ->
  ta <= tw ->
  0 <= rh <= 100 ->
  ta < tw \/ rh < 100 ->
  0 <= w -> 0 <= c <= 100 -> 0 < e -> 0 < s ->
  exists r,
    calculate_evaporation_rate tw ta rh w s c e = Ok r /\
    0 < vp_deficit_mmhg r /\
    0 < evap_inches_per_day r /\
    0 < evap_gallons_per_day r.
Proof.
  intros Pa Hle Hrh Hstrict Hw Hc He Hs.
  assert (Pw : 0 < C + celsius_of_fahrenheit tw)
    by (unfold celsius_of_fahrenheit in *; lra).
  pose proof (vapor_pressure_mmhg_above_pole tw Pw) as Ew.
  pose proof (vapor_pressure_mmhg_above_pole ta Pa) as Ea.
  eexists. split; [apply (calculate_evaporation_rate_eq _ _ _ _ _ _ _ _ _ Ew Ea) |].
  model_fields.
  pose proof (antoine_reference_pos ta) as Hpa.
  set (pw := antoine_reference tw) in *. set (pa := antoine_reference ta) in *.
  assert (Hd : 0 < pw - pa * (rh / 100)).
  { destruct Hstrict as [Hlt | Hlt].
    - assert (pa < pw) by (apply antoine_reference_increasing; assumption).
      assert (pa * (rh / 100) <= pa) by nra. lra.
    - assert (pa <= pw).
      { destruct (Rle_lt_or_eq_dec ta tw Hle) as [L | E].
        - left. apply antoine_reference_increasing; assumption.
        - right. unfold pa, pw. now rewrite E. }
      assert (pa * (rh / 100) < pa) by nra. lra. }
  set (d := pw - pa * (rh / 100)) in *.
  assert (Hwm : 1 <= 1 + w * 0.04) by lra.
  assert (Ham : 1 <= (1 - c / 100) * 1.0 + c / 100 * 2.0) by lra.
  assert (Hef : 0 < e / 24) by lra.
  set (wm := 1 + w * 0.04) in *.
  set (am := (1 - c / 100) * 1.0 + c / 100 * 2.0) in *.
  set (ef := e / 24) in *.
  assert (H1 : 0 < 0.0018 * d * wm) by nra.
  assert (H2 : 0 < 0.0018 * d * wm * am) by nra.
  assert (H3 : 0 < 0.0018 * d * wm * am * ef) by nra.
  split; [exact Hd |]. split; [exact H3 |].
  set (rate := 0.0018 * d * wm * am * ef) in *.
  assert (H5 : 0 < s * (rate / 12)) by nra.
  lra.
Qed.

Lemma warm_tub_loses_water_witness :
  exists r,
    calculate_evaporation_rate 102 70 35 5 100 25 14 = Ok r /\
    0 < vp_deficit_mmhg r /\
    0 < evap_inches_per_day r /\
    0 < evap_gallons_per_day r.
Proof.
  apply (warm_tub_loses_water 102 70 35 5 100 25 14); try lra.
  unfold C, celsius_of_fahrenheit. lra.
Defined.

(** X3: more humid air means less evaporation: with wind speed at least 0,
    churn percentage in [0, 100], positive exposure and area, a higher
    relative humidity gives a strictly smaller deficit, rate and volume. *)
Theorem humidity_reduces_evaporation (tw ta rh1 rh2 w s c e : R) :
  returns (vapor_pressure_mmhg tw) ->
  returns (vapor_pressure_mmhg ta) ->
  rh1 < rh2 ->
  0 <= w -> 0 <= c <= 100 -> 0 < e -> 0 < s ->
  exists r1 r2,
    calculate_evaporation_rate tw ta rh1 w s c e = Ok r1 /\
    calculate_evaporation_rate tw ta rh2 w s c e = Ok r2 /\
    vp_deficit_mmhg r2 < vp_deficit_mmhg r1 /\
    evap_inches_per_day r2 < evap_inches_per_day r1 /\
    evap_gallons_per_day r2 < evap_gallons_per_day r1.
Proof.
  intros [pw Hw] [pa Ha] Hrh Hwind Hc He Hs.
  do 2 eexists.
  split; [apply (calculate_evaporation_rate_eq _ _ _ _ _ _ _ _ _ Hw Ha) |].
  split; [apply (calculate_evaporation_rate_eq _ _ _ _ _ _ _ _ _ Hw Ha) |].
  model_fields.
  assert (Hpa : 0 < pa).
  { apply vapor_pressure_mmhg_inv in Ha. destruct Ha as [_ [_ ->]].
    apply antoine_reference_pos. }
  assert (Hd : pw - pa * (rh2 / 100) < pw - pa * (rh1 / 100)) by nra.
  set (d1 := pw - pa * (rh1 / 100)) in *.
  set (d2 := pw - pa * (rh2 / 100)) in *.
  assert (Hwm : 1 <= 1 + w * 0.04) by lra.
  assert (Ham : 1 <= (1 - c / 100) * 1.0 + c / 100 * 2.0) by lra.
  assert (Hef : 0 < e / 24) by lra.
  set (wm := 1 + w * 0.04) in *.
  set (am := (1 - c / 100) * 1.0 + c / 100 * 2.0) in *.
  set (ef := e / 24) in *.
  assert (H1 : 0.0018 * d2 * wm < 0.0018 * d1 * wm) by nra.
  assert (H2 : 0.0018 * d2 * wm * am < 0.0018 * d1 * wm * am) by nra.
  assert (H3 : 0.0018 * d2 * wm * am * ef < 0.0018 * d1 * wm * am * ef) by nra.
  split; [exact Hd |]. split; [exact H3 |].
  set (x1 := 0.0018 * d1 * wm * am * ef) in *.
  set (x2 := 0.0018 * d2 * wm * am * ef) in *.
  assert (H5 : s * (x2 / 12) < s * (x1 / 12)) by nra.
  lra.
Qed.

Lemma humidity_reduces_evaporation_witness :
  exists r1 r2,
    calculate_evaporation_rate 102 70 35 5 100 25 14 = Ok r1 /\
    calculate_evaporation_rate 102 70 45 5 100 25 14 = Ok r2 /\
    evap_gallons_per_day r2 < evap_gallons_per_day r1.
Proof.
  destruct (humidity_reduces_evaporation 102 70 35 45 5 100 25 14
              returns_at_102 returns_at_70)
    as [r1 [r2 [H1 [H2 [_ [_ Hg]]]]]]; try lra.
  exists r1, r2. repeat split; assumption.
Defined.

(** X4: wind raises the loss, but less than in proportion: under a positive
    still-air loss, a positive wind speed gives more gallons per day than
    still air, twice that wind speed gives more again, and yet less than
    twice the loss. *)
Theorem wind_raises_the_loss (tw ta rh w s c e : R) :
  returns (vapor_pressure_mmhg tw) ->
  returns (vapor_pressure_mmhg ta) ->
  0 < w ->
  exists r0 r r',
    calculate_evaporation_rate tw ta rh 0 s c e = Ok r0 /\
    calculate_evaporation_rate tw ta rh w s c e = Ok r /\
    calculate_evaporation_rate tw ta rh (2 * w) s c e = Ok r' /\
    wind_multiplier r0 < wind_multiplier r < wind_multiplier r' /\
    (0 < evap_gallons_per_day r0 ->
     evap_gallons_per_day r0 < evap_gallons_per_day r /\
     evap_gallons_per_day r < evap_gallons_per_day r' /\
     evap_gallons_per_day r' < 2 * evap_gallons_per_day r).
Proof.
  intros [pw Hw] [pa Ha] Hpos.
  do 3 eexists.
  split; [apply (calculate_evaporation_rate_eq _ _ _ _ _ _ _ _ _ Hw Ha) |].
  split; [apply (calculate_evaporation_rate_eq _ _ _ _ _ _ _ _ _ Hw Ha) |].
  split; [apply (calculate_evaporation_rate_eq _ _ _ _ _ _ _ _ _ Hw Ha) |].
  model_fields.
  split; [lra |].
  intros H0.
  set (k := 0.0018 * (pw - pa * (rh / 100))) in *.
  set (am := (1 - c / 100) * 1.0 + c / 100 * 2.0) in *.
  set (ef := e / 24) in *.
  assert (E0 : s * (k * (1 + 0 * 0.04) * am * ef / 12) * 7.48
               = s * (k * am * ef / 12) * 7.48) by field.
  assert (E1 : s * (k * (1 + w * 0.04) * am * ef / 12) * 7.48
               = (1 + 0.04 * w) * (s * (k * am * ef / 12) * 7.48)) by field.
  assert (E2 : s * (k * (1 + 2 * w * 0.04) * am * ef / 12) * 7.48
               = (1 + 2 * w * 0.04) * (s * (k * am * ef / 12) * 7.48))
    by field.
  rewrite E0 in H0. rewrite E0, E1, E2.
  set (q := s * (k * am * ef / 12) * 7.48) in *.
  repeat split; nra.
Qed.

Lemma wind_raises_the_loss_witness :
  exists r r',
    calculate_evaporation_rate 102 70 35 5 100 25 14 = Ok r /\
    calculate_evaporation_rate 102 70 35 (2 * 5) 100 25 14 = Ok r' /\
    wind_multiplier r < wind_multiplier r'.
Proof.
  destruct (wind_raises_the_loss 102 70 35 5 100 25 14
              returns_at_102 returns_at_70)
    as [r0 [r [r' [H0 [H [H' [[_ Hwm] _]]]]]]]; [lra |].
  exists r, r'. repeat split; assumption.
Defined.

(** X5: the agitation multiplier stays between the still-water value 1 and
    the churned-water value 2 for a churn percentage between 0 and 100, and
    it is not clamped to that band: 100 percent or more gives at least 2
    and 200 percent or more at least 3, while 0 percent or less gives at
    most 1 and -100 percent or less a multiplier of zero or below. *)
Theorem agitation_multiplier_bounds (tw ta rh w s c e : R) :
  returns (vapor_pressure_mmhg tw) ->
  returns (vapor_pressure_mmhg ta) ->
  exists r,
    calculate_evaporation_rate tw ta rh w s c e = Ok r /\
    (0 <= c <= 100 -> 1 <= agitation_multiplier r <= 2) /\
    (100 <= c -> 2 <= agitation_multiplier r) /\
    (200 <= c -> 3 <= agitation_multiplier r) /\
    (c <= 0 -> agitation_multiplier r <= 1) /\
    (c <= -100 -> agitation_multiplier r <= 0).
Proof.
  intros [pw Hw] [pa Ha].
  eexists. split; [apply (calculate_evaporation_rate_eq _ _ _ _ _ _ _ _ _ Hw Ha) |].
  model_fields. repeat split; intros; lra.
Qed.

Lemma agitation_multiplier_bounds_witness :
  exists r,
    calculate_evaporation_rate 102 70 35 5 100 250 14 = Ok r /\
    3 <= agitation_multiplier r.
Proof.
  destruct (agitation_multiplier_bounds 102 70 35 5 100 250 14
              returns_at_102 returns_at_70) as [r [H [_ [_ [Hup _]]]]].
  exists r. split; [exact H |]. apply Hup; lra.
Defined.

(** X6: the industry estimate ignores both temperatures and the humidity: two
    calls that differ only in these return the same industry estimate, and
    it is positive for wind speed at least 0, churn in [0, 100], positive
    exposure and area. *)
Theorem industry_estimate_ignores_weather
    (tw ta rh tw' ta' rh' w s c e : R) :
  returns (vapor_pressure_mmhg tw) -> returns (vapor_pressure_mmhg ta) ->
  returns (vapor_pressure_mmhg tw') -> returns (vapor_pressure_mmhg ta') ->
  exists r r',
    calculate_evaporation_rate tw ta rh w s c e = Ok r /\
    calculate_evaporation_rate tw' ta' rh' w s c e = Ok r' /\
    industry_estimate_gallons r = industry_estimate_gallons r' /\
    (0 <= w -> 0 <= c <= 100 -> 0 < e -> 0 < s ->
     0 < industry_estimate_gallons r).
Proof.
  intros [pw Hw] [pa Ha] [pw' Hw'] [pa' Ha'].
  do 2 eexists.
  split; [apply (calculate_evaporation_rate_eq _ _ _ _ _ _ _ _ _ Hw Ha) |].
  split; [apply (calculate_evaporation_rate_eq _ _ _ _ _ _ _ _ _ Hw' Ha') |].
  model_fields. split; [reflexivity |].
  intros Hwind Hc He Hs.
  assert (Hwm : 1 <= 1 + w * 0.04) by lra.
  assert (Ham : 1 <= (1 - c / 100) * 1.0 + c / 100 * 2.0) by lra.
  assert (Hef : 0 < e / 24) by lra.
  set (wm := 1 + w * 0.04) in *.
  set (am := (1 - c / 100) * 1.0 + c / 100 * 2.0) in *.
  set (ef := e / 24) in *.
  assert (H1 : 0 < 0.35 * wm) by nra.
  assert (H2 : 0 < 0.35 * wm * am) by nra.
  assert (H3 : 0 < 0.35 * wm * am * ef) by nra.
  assert (H4 : 0 < 0.35 * wm * am * ef * s) by nra.
  lra.
Qed.

Lemma industry_estimate_ignores_weather_witness :
  exists r r',
    calculate_evaporation_rate 102 70 35 5 100 25 14 = Ok r /\
    calculate_evaporation_rate 70 102 90 5 100 25 14 = Ok r' /\
    industry_estimate_gallons r = industry_estimate_gallons r'.
Proof.
  destruct (industry_estimate_ignores_weather 102 70 35 70 102 90 5 100 25 14
              returns_at_102 returns_at_70 returns_at_70 returns_at_102)
    as [r [r' [H [H' [Heq _]]]]].
  exists r, r'. repeat split; assumption.
Defined.

End EvaporationBehaviour.

Section MainBehaviour.

Local Open Scope R_scope.

Lemma ten_pow_297_in_range : 10 ^ 297 <= float_max.
Proof.
  apply Rle_trans with (2 ^ 1023); [| exact float_max_lower].
  apply Rle_trans with (2 ^ 990); [| apply Rle_pow; [lra | lia]].
  change (10 ^ (3 * 99) <= 2 ^ (10 * 99)).
  rewrite !pow_mult. apply pow_incr. split; [| simpl; lra].
  apply pow_le; lra.
Qed.

(** X7: far enough below the pole the helper returns again, silently and with
    values beyond anything it returns above the pole. *)
Theorem far_below_pole_returns_large_values (T : R) :
  C + celsius_of_fahrenheit T <= -6 ->
  vapor_pressure_mmhg T = Ok (antoine_reference T) /\
  (forall T', 0 < C + celsius_of_fahrenheit T' ->
     antoine_reference T' < antoine_reference T).
Proof.
  intros Hd.
  set (m := - (C + celsius_of_fahrenheit T)).
  assert (Hm : 6 <= m) by (unfold m; lra).
  assert (Hq : B / (C + celsius_of_fahrenheit T) = - (B / m)).
  { unfold m. field. lra. }
  assert (HB : 0 < B) by (unfold B; lra).
  assert (Hinv : / m <= / 6) by (apply Rinv_le_contravar; lra).
  assert (Hinv0 : 0 < / m) by (apply Rinv_0_lt_compat; lra).
  assert (Hlog : A < antoine_log10 T <= 297).
  { unfold antoine_log10. rewrite Hq. unfold Rdiv.
    split; [nra |]. unfold A, B in *. nra. }
  split.
  - apply vapor_pressure_mmhg_defined; [lra |].
    rewrite antoine_reference_Rpower.
    apply Rle_trans with (Rpower 10 297).
    + apply Rle_Rpower; lra.
    + replace 297 with (INR 297) by (rewrite INR_IZR_INZ; reflexivity).
      rewrite Rpower_pow by lra. exact ten_pow_297_in_range.
  - intros T' Hpos. rewrite !antoine_reference_Rpower.
    apply Rpower_lt; [lra |].
    pose proof (antoine_log10_below_A T' Hpos). lra.
Qed.

Lemma far_below_pole_returns_large_values_witness :
  vapor_pressure_mmhg (-400) = Ok (antoine_reference (-400)) /\
  antoine_reference 212 < antoine_reference (-400).
Proof.
  destruct (far_below_pole_returns_large_values (-400)) as [H1 H2].
  - unfold C, celsius_of_fahrenheit. lra.
  - split; [exact H1 |]. apply H2. unfold C, celsius_of_fahrenheit. lra.
Defined.

Lemma pow_nat_2_overflow (x : R) :
  float_max < x * x -> pow_nat x 2 = Raise OverflowError.
Proof.
  intros Hbig. unfold pow_nat.
  assert (E : x ^ 2 = x * x) by (simpl; ring).
  rewrite E. apply checked_overflow. rewrite Rabs_pos_eq by nra. exact Hbig.
Qed.

(** X8: [main] validates nothing: it returns exactly when the squared radius is
    within the double range and both saturated pressures are returned; a
    larger radius makes [radius_ft ** 2] raise [OverflowError] before the
    model is called. *)
Theorem main_returns_exactly (d tw e ta rh w c : R) :
  (returns (main d tw e ta rh w c) <->
     d / 2 * (d / 2) <= float_max /\
     returns (vapor_pressure_mmhg tw) /\ returns (vapor_pressure_mmhg ta)) /\
  (float_max < d / 2 * (d / 2) ->
     main d tw e ta rh w c = Raise OverflowError).
Proof.
  split.
  - split.
    + intros [rep Hrep]. apply main_inv in Hrep.
      destruct Hrep as [sq [Hsq [Hr _]]].
      apply pow_nat_2_inv in Hsq. destruct Hsq as [_ Hmax].
      apply calculate_evaporation_rate_inv in Hr.
      destruct Hr as [pw [pa [Hw Ha]]].
      split; [exact Hmax |]. split; [now exists pw | now exists pa].
    + intros [Hmax [Hw Ha]]. now apply main_returns.
  - intros Hbig. unfold main.
    rewrite truediv_nonzero by lra. rewrite bind_Ok.
    rewrite (pow_nat_2_overflow _ Hbig). reflexivity.
Qed.

Lemma main_returns_exactly_witness :
  returns (main 12 102 14 70 35 5 25).
Proof.
  apply (proj1 (main_returns_exactly 12 102 14 70 35 5 25)).
  split; [| split; [exact returns_at_102 | exact returns_at_70]].
  apply small_square_in_range. simpl. lra.
Defined.

(** X9: a negative diameter is accepted as is and gives the report of the
    positive one. *)
Theorem main_ignores_sign_of_diameter (d tw e ta rh w c : R) :
  main (- d) tw e ta rh w c = main d tw e ta rh w c.
Proof.
  unfold main. rewrite !truediv_nonzero by lra. rewrite !bind_Ok.
  unfold pow_nat.
  replace ((- d / 2) ^ 2) with ((d / 2) ^ 2) by (simpl; field).
  reflexivity.
Qed.

(** X10: at equilibrium (water as warm as the air, 100 percent humidity) the
    deficit is zero: the report shows no loss per day, week or month and an
    infinite number of days per inch. *)
Theorem equilibrium_loses_nothing (d T e w c : R) :
  d / 2 * (d / 2) <= float_max ->
  returns (vapor_pressure_mmhg T) ->
  exists rep,
    main d T e T 100 w c = Ok rep /\
    vp_deficit_mmhg (results rep) = 0 /\
    evap_inches_per_day (results rep) = 0 /\
    evap_gallons_per_day (results rep) = 0 /\
    weekly_loss rep = 0 /\
    monthly_loss rep = 0 /\
    days_per_inch rep = Infinity.
Proof.
  intros Hmax [p Hp].
  pose proof (calculate_evaporation_rate_eq T T 100 w
                (PI * (d / 2 * (d / 2))) c e p p Hp Hp) as Hr.
  assert (Hd : p - p * (100 / 100) = 0) by lra.
  rewrite Hd in Hr.
  assert (Hrate : 0.0018 * 0 * (1 + w * 0.04) *
                  ((1 - c / 100) * 1.0 + c / 100 * 2.0) * (e / 24) = 0)
    by ring.
  rewrite Hrate in Hr.
  eexists. split.
  - eapply main_eq; [now apply pow_nat_2_ok | exact Hr |].
    cbn [evap_inches_per_day]. apply days_to_lose_one_inch_nonpositive. lra.
  - cbn. repeat split; try reflexivity; lra.
Qed.

Lemma equilibrium_loses_nothing_witness :
  exists rep,
    main 12 70 14 70 100 5 25 = Ok rep /\
    evap_gallons_per_day (results rep) = 0 /\
    days_per_inch rep = Infinity.
Proof.
  destruct (equilibrium_loses_nothing 12 70 14 5 25)
    as [rep [H [_ [_ [Hg [_ [_ Hdays]]]]]]].
  - apply small_square_in_range. simpl. lra.
  - exact returns_at_70.
  - exists rep. repeat split; assumption.
Defined.

End MainBehaviour.

(** * Further properties of weather.py *)

Section WeatherBehaviour.

Import Weather.
Local Open Scope string_scope.
Local Open Scope Z_scope.

Variable w : World.
Variable api_key : string.

Lemma get_weather_returns_body_aux (tick : nat) (city : string)
    (r : Response) (v : pyval) :
  http_get w tick (request_for api_key city) = Delivered r ->
  ~ (400 <= status_code r < 600) ->
  json r = Return v ->
  get_weather w api_key tick city = ([], Return v).
Proof.
  intros H Hok Hj.
  rewrite (get_weather_delivered _ _ _ _ _ H Hok), Hj. reflexivity.
Qed.

(** X11: a response outside the 4xx and 5xx ranges whose body decodes is handed
    back unchanged, whatever it is, and nothing is printed; the caller then
    sees [None] exactly when the body is the JSON [null]. *)
Theorem get_weather_returns_body (tick : nat) (city : string) (r : Response)
    (v : pyval) :
  http_get w tick (request_for api_key city) = Delivered r ->
  ~ (400 <= status_code r < 600) ->
  json r = Return v ->
  get_weather w api_key tick city = ([], Return v) /\
  (snd (get_weather w api_key tick city) = Return PNone <-> v = PNone).
Proof.
  intros H Hok Hj.
  rewrite (get_weather_returns_body_aux tick city r v H Hok Hj).
  split; [reflexivity |]. cbn. split.
  - intros E. now injection E.
  - intros ->. reflexivity.
Qed.

(** X12: exceptions from outside the [requests] hierarchy are not caught: one
    raised by [requests.get], or by [.json()] on a good response, leaves
    [get_weather] unchanged and without any message. *)
Theorem get_weather_propagates_foreign_exceptions (tick : nat)
    (city : string) :
  (forall name msg,
     http_get w tick (request_for api_key city) = Interrupted name msg ->
     get_weather w api_key tick city = ([], Raised (builtin name msg))) /\
  (forall r e,
     http_get w tick (request_for api_key city) = Delivered r ->
     ~ (400 <= status_code r < 600) ->
     json r = Raised e -> is_RequestException e = false ->
     get_weather w api_key tick city = ([], Raised e)).
Proof.
  split.
  - intros name msg H. now apply get_weather_interrupted.
  - intros r e H Hok Hj He.
    rewrite (get_weather_delivered _ _ _ _ _ H Hok), Hj. cbn.
    unfold get_weather_handler.
    assert (E1 : is_HTTPError e = false).
    { unfold is_HTTPError, is_RequestException in *.
      destruct (cls e); [discriminate | discriminate | discriminate | reflexivity]. }
    rewrite E1, He. reflexivity.
Qed.

(** X13: [get_weather] prints at most one line, and whenever it prints, it
    returns [None]. *)
Theorem get_weather_prints_at_most_once (tick : nat) (city : string) :
  fst (get_weather w api_key tick city) = [] \/
  exists line,
    get_weather w api_key tick city = ([line], Return PNone).
Proof.
  destruct (http_get w tick (request_for api_key city))
    as [r|name msg|name msg] eqn:H.
  - destruct (Z_le_dec 400 (status_code r)) as [Hlo|Hlo];
      [destruct (Z_lt_dec (status_code r) 600) as [Hhi|Hhi] |].
    + right. eexists. apply (get_weather_http_error _ _ _ _ _ H (conj Hlo Hhi)).
    + assert (Hok : ~ (400 <= status_code r < 600)) by lia.
      destruct (json r) as [v|e] eqn:Hj.
      * left. now rewrite (get_weather_returns_body_aux tick city r v H Hok Hj).
      * destruct (is_RequestException e) eqn:He.
        -- right. apply (get_weather_json_error _ _ _ _ _ _ H Hok Hj He).
        -- left. rewrite (get_weather_delivered _ _ _ _ _ H Hok), Hj. cbn.
           unfold get_weather_handler.
           destruct (is_HTTPError e) eqn:E1.
           ++ unfold is_HTTPError, is_RequestException in *.
              destruct (cls e); discriminate.
           ++ rewrite He. reflexivity.
    + assert (Hok : ~ (400 <= status_code r < 600)) by lia.
      destruct (json r) as [v|e] eqn:Hj.
      * left. now rewrite (get_weather_returns_body_aux tick city r v H Hok Hj).
      * destruct (is_RequestException e) eqn:He.
        -- right. apply (get_weather_json_error _ _ _ _ _ _ H Hok Hj He).
        -- left. rewrite (get_weather_delivered _ _ _ _ _ H Hok), Hj. cbn.
           unfold get_weather_handler.
           destruct (is_HTTPError e) eqn:E1.
           ++ unfold is_HTTPError, is_RequestException in *.
              destruct (cls e); discriminate.
           ++ rewrite He. reflexivity.
  - right. eexists. apply (get_weather_network_error _ _ _ _ _ _ H).
  - left. now rewrite (get_weather_interrupted _ _ _ _ _ _ H).
Qed.

(** *** display_weather *)

Lemma bind_lift {A B : Type} (o : outcome A) (k : A -> io B) :
  Weather.bind (lift o) k =
  match o with
  | Return a => k a
  | Raised e => ([], Raised e)
  end.
Proof.
  destruct o as [a|e]; cbn; [| reflexivity]. destruct (k a); reflexivity.
Qed.

Lemma bind_print {B : Type} (s : string) (k : unit -> io B) :
  Weather.bind (print s) k = (s :: fst (k tt), snd (k tt)).
Proof. cbn. destruct (k tt); reflexivity. Qed.

Lemma get2_eq (v : pyval) (k1 k2 : key) :
  get2 v k1 k2 =
  lift (match getitem v k1 with
        | Return x => getitem x k2
        | Raised e => Raised e
        end).
Proof.
  unfold get2. rewrite bind_lift. destruct (getitem v k1); reflexivity.
Qed.

(** Either nothing was printed, or the ten lines were and the call
    returned; nothing is printed before an exception. *)
Local Abbreviation all_or_nothing m :=
  ((fst m = [] \/ (List.length (fst m) = 10%nat /\ snd m = Return tt)) /\
   (forall e, snd m = Raised e -> fst m = [])).

Lemma all_or_nothing_lift {A : Type} (o : outcome A) (k : A -> io unit) :
  (forall a, all_or_nothing (k a)) ->
  all_or_nothing (Weather.bind (lift o) k).
Proof.
  intros Hk. rewrite bind_lift. destruct o as [a|e]; [apply Hk |].
  cbn. split; [now left | reflexivity].
Qed.

Lemma all_or_nothing_get2 (v : pyval) (k1 k2 : key) (k : pyval -> io unit) :
  (forall a, all_or_nothing (k a)) ->
  all_or_nothing (Weather.bind (get2 v k1 k2) k).
Proof. intros Hk. rewrite get2_eq. now apply all_or_nothing_lift. Qed.

(** X14: [display_weather] reads every field before it prints: a falsy value
    (None, an empty object or list, zero, the empty string) prints nothing;
    otherwise either all ten lines are printed, or an exception is raised
    and nothing at all has been printed. *)
Theorem display_weather_all_or_nothing (v : pyval) :
  (truthy v = false -> display_weather w v = ([], Return tt)) /\
  (fst (display_weather w v) = [] \/
   (List.length (fst (display_weather w v)) = 10%nat /\
    snd (display_weather w v) = Return tt)) /\
  (forall e, snd (display_weather w v) = Raised e ->
     fst (display_weather w v) = []).
Proof.
  split.
  - intros Hf. unfold display_weather. rewrite Hf. reflexivity.
  - unfold display_weather. destruct (truthy v); cbn [negb].
    + repeat (first [apply all_or_nothing_lift | apply all_or_nothing_get2];
              intros ?).
      rewrite !bind_print. cbn [fst snd List.length print].
      split; [right; split; reflexivity | discriminate].
    + cbn. split; [now left | discriminate].
Qed.

(** X15: for a body that has every field read at lines 69-79, with a string as
    description, the ten lines of lines 82-91 are printed: the city and
    country, the local time, the capitalized description, the temperature
    with its felt value, humidity, pressure and wind speed, between rules of
    fifty equal signs. *)
Theorem display_weather_prints_report
    (v city sys country main_ temp feels_like humidity pressure weather first
     wind wind_speed timestamp : pyval) (description time : string) :
  truthy v = true ->
  getitem v (KStr "name") = Return city ->
  getitem v (KStr "sys") = Return sys ->
  getitem sys (KStr "country") = Return country ->
  getitem v (KStr "main") = Return main_ ->
  getitem main_ (KStr "temp") = Return temp ->
  getitem main_ (KStr "feels_like") = Return feels_like ->
  getitem main_ (KStr "humidity") = Return humidity ->
  getitem main_ (KStr "pressure") = Return pressure ->
  getitem v (KStr "weather") = Return weather ->
  getitem weather (KInt 0) = Return first ->
  getitem first (KStr "description") = Return (PStr description) ->
  getitem v (KStr "wind") = Return wind ->
  getitem wind (KStr "speed") = Return wind_speed ->
  getitem v (KStr "dt") = Return timestamp ->
  strftime_local w timestamp = Return time ->
  display_weather w v =
  ([nl ++ repeat_string "=" 50;
    "Weather in " ++ str_of w city ++ ", " ++ str_of w country;
    repeat_string "=" 50;
    "Time: " ++ time;
    "Condition: " ++ str_of w (PStr (capitalize description));
    "Temperature: " ++ str_of w temp ++ "°C (Feels like "
      ++ str_of w feels_like ++ "°C)";
    "Humidity: " ++ str_of w humidity ++ "%";
    "Pressure: " ++ str_of w pressure ++ " hPa";
    "Wind Speed: " ++ str_of w wind_speed ++ " m/s";
    repeat_string "=" 50 ++ nl], Return tt).
Proof.
  intros Ht Hname Hsys Hcountry Hmain Htemp Hfeels Hhum Hpres Hweather
         Hfirst Hdesc Hwind Hspeed Hdt Htime.
  unfold display_weather. rewrite Ht. cbn [negb].
  rewrite !get2_eq.
  rewrite Hname, Hsys, Hmain, Hweather, Hwind, Hdt. cbv beta iota.
  rewrite Hcountry, Htemp, Hfeels, Hhum, Hpres, Hfirst, Hspeed.
  repeat (rewrite bind_lift; cbv beta iota;
          rewrite ?Hdesc, ?Htime; cbn [capitalize_value]).
  rewrite !bind_print. reflexivity.
Qed.

(** X16: a truthy body that is not an object with a ["name"] entry makes
    [display_weather] raise before anything is printed: [KeyError] for an
    object without that key, [TypeError] for a value that is no object. *)
Theorem display_weather_rejects_other_bodies (v : pyval) :
  truthy v = true ->
  (forall d, v = PDict d -> lookup "name" d = None ->
     display_weather w v = ([], Raised (builtin "KeyError" "name"))) /\
  ((forall d, v <> PDict d) ->
     display_weather w v = ([], Raised (builtin "TypeError" "bad subscript"))).
Proof.
  intros Ht. split.
  - intros d -> Hname. unfold display_weather. rewrite Ht. cbn [negb].
    rewrite bind_lift. cbn [getitem]. rewrite Hname. reflexivity.
  - intros Hnd. unfold display_weather. rewrite Ht. cbn [negb].
    rewrite bind_lift.
    destruct v; try reflexivity. elim (Hnd d). reflexivity.
Qed.

(** *** The loop *)

Lemma lstrip_spaces (ws l : list ascii) :
  forallb is_space ws = true -> lstrip (ws ++ l) = lstrip l.
Proof.
  induction ws as [|c ws IH]; intros H; [reflexivity |].
  cbn in H. apply andb_prop in H. destruct H as [Hc Hws].
  cbn [app lstrip]. rewrite Hc. now apply IH.
Qed.

Lemma lstrip_all_spaces (ws : list ascii) :
  forallb is_space ws = true -> lstrip ws = [].
Proof.
  intros H. rewrite <- (app_nil_r ws). now rewrite lstrip_spaces.
Qed.

Lemma forallb_rev {A : Type} (f : A -> bool) (l : list A) :
  forallb f l = true -> forallb f (rev l) = true.
Proof.
  rewrite !forallb_forall. intros H x Hx. apply H. now apply in_rev.
Qed.

(** [strip] removes white space around a word that starts and ends with
    other characters. *)
Lemma strip_padded (ws ws' mid : list ascii) (c c' : ascii) :
  forallb is_space ws = true -> forallb is_space ws' = true ->
  is_space c = false -> is_space c' = false ->
  strip (string_of_list_ascii (ws ++ (c :: mid ++ [c']) ++ ws')%list) =
  string_of_list_ascii (c :: mid ++ [c'])%list.
Proof.
  intros Hws Hws' Hc Hc'. unfold strip.
  rewrite list_ascii_of_string_of_list_ascii.
  rewrite lstrip_spaces by exact Hws.
  cbn [app lstrip]. rewrite Hc.
  replace (c :: (mid ++ [c']) ++ ws')%list
    with (((c :: mid) ++ [c']) ++ ws')%list by reflexivity.
  rewrite rev_app_distr.
  rewrite lstrip_spaces by (now apply forallb_rev).
  rewrite (rev_app_distr (c :: mid)). cbn [rev app lstrip]. rewrite Hc'.
  replace (c' :: rev mid ++ [c])%list
    with (rev ((c :: mid) ++ [c'])%list)
    by (rewrite rev_app_distr; reflexivity).
  now rewrite rev_involutive.
Qed.

Lemma is_space_lower_ascii (c : ascii) :
  is_space (lower_ascii c) = is_space c.
Proof. destruct c as [[] [] [] [] [] [] [] []]; reflexivity. Qed.

Lemma lower_four (word : string) (a b c d : ascii) :
  lower word = String a (String b (String c (String d EmptyString))) ->
  is_space a = false -> is_space d = false ->
  exists c1 c2 c3 c4,
    word = string_of_list_ascii (c1 :: [c2; c3] ++ [c4])%list /\
    is_space c1 = false /\ is_space c4 = false.
Proof.
  intros H Ha Hd.
  destruct word as [|c1 [|c2 [|c3 [|c4 [|c5 r]]]]]; cbn in H;
    try discriminate H.
  injection H as H1 H2 H3 H4.
  exists c1, c2, c3, c4. split; [reflexivity |].
  split; [now rewrite <- is_space_lower_ascii, H1
         | now rewrite <- is_space_lower_ascii, H4].
Qed.

(** X17: the words quit and exit, in any letter case and surrounded by any
    white space, end the loop with the goodbye line: no request is made and
    the rest of the input is not read. *)
Theorem quit_ends_the_loop (tick : nat) (ws ws' : list ascii)
    (word : string) (rest : list string) :
  forallb is_space ws = true -> forallb is_space ws' = true ->
  lower word = "quit" \/ lower word = "exit" ->
  run_loop w api_key tick
    (string_of_list_ascii (ws ++ list_ascii_of_string word ++ ws')%list
       :: rest) =
  (["Thank you for using Weather App. Goodbye!"], Return tt).
Proof.
  intros Hws Hws' Hword.
  assert (Hstrip : strip (string_of_list_ascii
                            (ws ++ list_ascii_of_string word ++ ws')%list)
                   = word).
  { assert (Hfour : exists c1 c2 c3 c4,
               word = string_of_list_ascii (c1 :: [c2; c3] ++ [c4])%list /\
               is_space c1 = false /\ is_space c4 = false).
    { destruct Hword as [H | H];
        apply (lower_four _ _ _ _ _ H); reflexivity. }
    destruct Hfour as [c1 [c2 [c3 [c4 [-> [H1 H4]]]]]].
    rewrite list_ascii_of_string_of_list_ascii.
    now apply strip_padded. }
  cbn [run_loop]. cbv zeta. rewrite Hstrip.
  destruct Hword as [-> | ->]; reflexivity.
Qed.

(** X18: a line of white space only (or an empty line) is answered with the
    request for a valid name; the loop goes on with the next line without
    having made a request. *)
Theorem blank_line_is_skipped (tick : nat) (line : string)
    (rest : list string) :
  forallb is_space (list_ascii_of_string line) = true ->
  run_loop w api_key tick (line :: rest) =
  ("Please enter a valid city name." :: fst (run_loop w api_key tick rest),
   snd (run_loop w api_key tick rest)).
Proof.
  intros Hblank.
  assert (Hstrip : strip line = "").
  { unfold strip. now rewrite (lstrip_all_spaces _ Hblank). }
  cbn [run_loop]. cbv zeta. rewrite Hstrip. cbn [lower existsb].
  cbn -[run_loop]. destruct (run_loop w api_key tick rest); reflexivity.
Qed.

Lemma io_bind_inv {A B : Type} (m : io A) (k : A -> io B) (b : B) :
  snd (Weather.bind m k) = Return b ->
  exists a, snd m = Return a /\ snd (k a) = Return b /\
            fst (Weather.bind m k) = (fst m ++ fst (k a))%list.
Proof.
  destruct m as [out [a|e]]; cbn; [| discriminate].
  destruct (k a) as [out' r] eqn:Hk. cbn. intros ->.
  exists a. rewrite Hk. repeat split.
Qed.

Lemma last_app_nonempty {A : Type} (l l' : list A) (d : A) :
  l' <> [] -> last (l ++ l') d = last l' d.
Proof.
  intros Hne. induction l as [|a l IH]; [reflexivity |].
  cbn [app]. destruct (l ++ l')%list eqn:E.
  - apply app_eq_nil in E. destruct E as [_ E]. contradiction.
  - rewrite <- IH. reflexivity.
Qed.

(** X19: the loop returns normally only through a quit command: if [run_loop]
    returns, some input line is quit or exit once stripped and lowered, and
    the last line printed is the goodbye. *)
Theorem loop_returns_only_on_quit (stdin : list string) (tick : nat) :
  snd (run_loop w api_key tick stdin) = Return tt ->
  (exists line, In line stdin /\
     existsb (String.eqb (lower (strip line))) ["quit"; "exit"] = true) /\
  last (fst (run_loop w api_key tick stdin)) ""
    = "Thank you for using Weather App. Goodbye!".
Proof.
  revert tick. induction stdin as [|line rest IH]; intros tick.
  - cbn. discriminate.
  - cbn [run_loop]. cbv zeta.
    destruct (existsb (String.eqb (lower (strip line))) ["quit"; "exit"])
      eqn:Hq.
    + intros _. split; [| reflexivity].
      exists line. split; [now left | exact Hq].
    + assert (Hlast : forall out out' : list string,
                 last out' "" = "Thank you for using Weather App. Goodbye!" ->
                 last (out ++ out')%list ""
                 = "Thank you for using Weather App. Goodbye!").
      { intros out out' H. rewrite last_app_nonempty; [exact H |].
        intros ->. discriminate H. }
      destruct (strip line =? "")%string.
      * intros H. apply io_bind_inv in H.
        destruct H as [[] [_ [H Hout]]].
        destruct (IH tick H) as [[l [Hin Hl]] Hgoodbye].
        split; [exists l; split; [now right | exact Hl] |].
        rewrite Hout. now apply Hlast.
      * intros H. apply io_bind_inv in H.
        destruct H as [v [_ [H Hout]]]. rewrite Hout.
        apply io_bind_inv in H.
        destruct H as [[] [_ [H Hout']]]. rewrite Hout'.
        destruct (IH (S tick) H) as [[l [Hin Hl]] Hgoodbye].
        split; [exists l; split; [now right | exact Hl] |].
        apply Hlast. now apply Hlast.
Qed.

(** X20: with the network down or the service refusing (every request ends in a
    network exception or a 4xx/5xx status) the loop never crashes: it ends
    with the goodbye or with the end of the input. *)
Theorem loop_survives_failing_network (stdin : list string) (tick : nat) :
  (forall n req,
     match http_get w n req with
     | Delivered r => 400 <= status_code r < 600
     | NetworkError _ _ => True
     | Interrupted _ _ => False
     end) ->
  snd (run_loop w api_key tick stdin) = Return tt \/
  snd (run_loop w api_key tick stdin)
    = Raised (builtin "EOFError" "EOF when reading a line").
Proof.
  intros Hnet. revert tick.
  induction stdin as [|line rest IH]; intros tick.
  - right. reflexivity.
  - cbn [run_loop]. cbv zeta.
    destruct (existsb (String.eqb (lower (strip line))) ["quit"; "exit"]).
    + left. reflexivity.
    + destruct (strip line =? "")%string.
      * rewrite bind_print. cbn [snd]. apply IH.
      * assert (Hget : exists msg,
                   get_weather w api_key tick (strip line)
                   = ([msg], Return PNone)).
        { specialize (Hnet tick (request_for api_key (strip line))).
          destruct (http_get w tick (request_for api_key (strip line)))
            as [r|name msg|name msg] eqn:H.
          - eexists. apply (get_weather_http_error _ _ _ _ _ H Hnet).
          - eexists. apply (get_weather_network_error _ _ _ _ _ _ H).
          - contradiction. }
        destruct Hget as [msg ->].
        cbn -[run_loop].
        destruct (run_loop w api_key (S tick) rest) as [out r] eqn:Hrl.
        cbn. specialize (IH (S tick)). rewrite Hrl in IH. exact IH.
Qed.

(** X21: a 2xx answer whose body is a non-empty object without a ["name"] entry
    ends the whole loop: [KeyError] leaves [display_weather] and [run],
    nothing is printed and the remaining input is never read. *)
Theorem loop_crashes_on_unexpected_body (tick : nat) (line : string)
    (rest : list string) (r : Response) (d : list (string * pyval)) :
  existsb (String.eqb (lower (strip line))) ["quit"; "exit"] = false ->
  strip line <> "" ->
  http_get w tick (request_for api_key (strip line)) = Delivered r ->
  ~ (400 <= status_code r < 600) ->
  json r = Return (PDict d) -> d <> [] -> lookup "name" d = None ->
  run_loop w api_key tick (line :: rest) =
  ([], Raised (builtin "KeyError" "name")).
Proof.
  intros Hquit Hne H Hok Hj Hd Hname.
  cbn [run_loop]. cbv zeta. rewrite Hquit.
  destruct (String.eqb_spec (strip line) "") as [E|_]; [contradiction |].
  rewrite (get_weather_returns_body_aux _ _ _ _ H Hok Hj).
  unfold Weather.bind at 1. unfold display_weather.
  assert (Ht : truthy (PDict d) = true) by (destruct d; [contradiction | reflexivity]).
  rewrite Ht. cbn [negb]. rewrite bind_lift. cbn [getitem]. rewrite Hname.
  reflexivity.
Qed.

(** X22: without an API key (unset or empty) the program prints its two-line
    explanation and exits with status 1 before greeting, reading input or
    touching the network; with a key it goes straight into [run]. *)
Theorem missing_api_key_exits (getenv : option string)
    (stdin : list string) :
  (getenv = None \/ getenv = Some "" ->
   Weather.main w getenv stdin =
   (["Error: OPENWEATHER_API_KEY not found in environment variables.";
     "Please create a .env file with your API key."],
    Raised (builtin "SystemExit" "1"))) /\
  (forall k, getenv = Some k -> k <> "" ->
   Weather.main w getenv stdin = run w k stdin).
Proof.
  split.
  - intros [-> | ->]; reflexivity.
  - intros k -> Hk. unfold Weather.main, init.
    destruct (String.eqb_spec k "") as [E|_]; [contradiction |].
    cbn -[run]. destruct (run w k stdin); reflexivity.
Qed.

End WeatherBehaviour.

Section WeatherBehaviourWitnesses.

Import Weather.
Local Open Scope string_scope.
Local Open Scope Z_scope.

Lemma get_weather_returns_body_witness :
  get_weather world_with_london "key" 0 "London" = ([], Return london_body).
Proof.
  apply (get_weather_returns_body world_with_london "key" 0 "London"
           {| status_code := 200; http_error_text := "";
              json := Return london_body |} london_body);
    [reflexivity | cbn; lia | reflexivity].
Defined.

Lemma get_weather_propagates_foreign_exceptions_witness :
  get_weather world_interrupted "key" 0 "London" =
  ([], Raised (builtin "KeyboardInterrupt" "")).
Proof.
  apply (proj1 (get_weather_propagates_foreign_exceptions
                  world_interrupted "key" 0 "London")).
  reflexivity.
Defined.

Lemma display_weather_all_or_nothing_witness :
  display_weather world_with_london (PDict []) = ([], Return tt).
Proof.
  apply (proj1 (display_weather_all_or_nothing world_with_london (PDict []))).
  reflexivity.
Defined.

Lemma display_weather_prints_report_witness :
  display_weather world_with_london london_body =
  ([nl ++ repeat_string "=" 50;
    "Weather in London, GB";
    repeat_string "=" 50;
    "Time: 2023-11-14 22:13:20";
    "Condition: Light rain";
    "Temperature: 15°C (Feels like 14°C)";
    "Humidity: 72%";
    "Pressure: 1012 hPa";
    "Wind Speed: 4 m/s";
    repeat_string "=" 50 ++ nl], Return tt).
Proof.
  apply (display_weather_prints_report world_with_london london_body
           (PStr "London") (PDict [("country", PStr "GB")]) (PStr "GB")
           (PDict [("temp", PInt 15); ("feels_like", PInt 14);
                   ("humidity", PInt 72); ("pressure", PInt 1012)])
           (PInt 15) (PInt 14) (PInt 72) (PInt 1012)
           (PList [PDict [("description", PStr "light rain")]])
           (PDict [("description", PStr "light rain")])
           (PDict [("speed", PInt 4)]) (PInt 4) (PInt 1700000000)
           "light rain" "2023-11-14 22:13:20");
    reflexivity.
Defined.

Lemma display_weather_rejects_other_bodies_witness :
  display_weather world_with_error_object
    (PDict [("message", PStr "try later")]) =
  ([], Raised (builtin "KeyError" "name")).
Proof.
  apply (proj1 (display_weather_rejects_other_bodies world_with_error_object
                  (PDict [("message", PStr "try later")]) eq_refl)
           [("message", PStr "try later")]);
    reflexivity.
Defined.

Lemma quit_ends_the_loop_witness :
  run_loop world_with_london "key" 0 ["  QuIt "; "London"] =
  (["Thank you for using Weather App. Goodbye!"], Return tt).
Proof.
  apply (quit_ends_the_loop world_with_london "key" 0
           [" "%char; " "%char] [" "%char] "QuIt" ["London"]);
    [reflexivity | reflexivity | left; reflexivity].
Defined.

Lemma blank_line_is_skipped_witness :
  run_loop world_with_london "key" 0 ["   "; "quit"] =
  (["Please enter a valid city name.";
    "Thank you for using Weather App. Goodbye!"], Return tt).
Proof.
  apply (blank_line_is_skipped world_with_london "key" 0 "   " ["quit"]).
  reflexivity.
Defined.

Lemma loop_returns_only_on_quit_witness :
  (exists line, In line [" Atlantis "; "Exit"] /\
     existsb (String.eqb (lower (strip line))) ["quit"; "exit"] = true) /\
  last (fst (run_loop world_without_cities "key" 0 [" Atlantis "; "Exit"])) ""
    = "Thank you for using Weather App. Goodbye!".
Proof.
  apply (loop_returns_only_on_quit world_without_cities "key"
           [" Atlantis "; "Exit"] 0).
  reflexivity.
Defined.

Lemma loop_survives_failing_network_witness :
  snd (run_loop world_offline "key" 0 ["Paris"; ""; "Rome"]) = Return tt \/
  snd (run_loop world_offline "key" 0 ["Paris"; ""; "Rome"])
    = Raised (builtin "EOFError" "EOF when reading a line").
Proof.
  apply (loop_survives_failing_network world_offline "key"
           ["Paris"; ""; "Rome"] 0).
  intros n req. exact I.
Defined.

Lemma loop_crashes_on_unexpected_body_witness :
  run_loop world_with_error_object "key" 0 ["Paris"; "quit"] =
  ([], Raised (builtin "KeyError" "name")).
Proof.
  apply (loop_crashes_on_unexpected_body world_with_error_object "key" 0
           "Paris" ["quit"]
           {| status_code := 200; http_error_text := "";
              json := Return (PDict [("message", PStr "try later")]) |}
           [("message", PStr "try later")]);
    try reflexivity; try discriminate.
  cbn. lia.
Defined.

Lemma missing_api_key_exits_witness :
  Weather.main world_with_london None ["London"; "quit"] =
  (["Error: OPENWEATHER_API_KEY not found in environment variables.";
    "Please create a .env file with your API key."],
   Raised (builtin "SystemExit" "1")).
Proof.
  apply (proj1 (missing_api_key_exits world_with_london None
                  ["London"; "quit"])).
  left. reflexivity.
Defined.

End WeatherBehaviourWitnesses.

(** ** Binary64: the core on doubles *)

Section Binary64Core.

#[local] Set Warnings "-inexact-float".
Local Open Scope float_scope.

(** Two temperatures at which [log_p] is exactly 1 and exactly 0, so that
    the saturated pressures are exactly 10 and 1 mmHg. *)
Lemma f64_exact_pressures :
  F64.vapor_pressure_mmhg 52.36458668789802 = F64.Returns 10 /\
  F64.vapor_pressure_mmhg (-2.215324960632155) = F64.Returns 1.
Proof. split; vm_compute; reflexivity. Qed.

(** C8, as stated, fails on doubles: for water at 52.36458668789802 and air
    at -2.215324960632155 degrees Fahrenheit, 35 percent humidity, 5 mph,
    100 square feet, 25 percent churn and 14 hours, the code returns
    [industry_estimate_gallons * base_rate = 0.33158606250000006] and
    [evap_gallons_per_day * 0.35 = 0.3315860625]. *)
Lemma industry_relation_is_not_exact_in_binary64 :
  exists r,
    F64.calculate_evaporation_rate
      52.36458668789802 (-2.215324960632155) 35 5 100 25 14 = F64.Returns r /\
    F64.industry_estimate_gallons r * F64.base_rate r = 0.33158606250000006 /\
    F64.evap_gallons_per_day r * 0.35 = 0.3315860625 /\
    PrimFloat.eqb (F64.industry_estimate_gallons r * F64.base_rate r)
                  (F64.evap_gallons_per_day r * 0.35) = false.
Proof.
  eexists. split; [vm_compute; reflexivity |].
  repeat split; vm_compute; reflexivity.
Qed.

(** On doubles, too, 24 hours give exposure fraction 1 and 0 hours give no
    loss, and wind raises the loss by less than its proportion. *)
Lemma f64_exposure_and_wind :
  exists r24 r0 w0 w5 w10,
    F64.calculate_evaporation_rate
      52.36458668789802 (-2.215324960632155) 35 5 100 25 24 = F64.Returns r24 /\
    F64.calculate_evaporation_rate
      52.36458668789802 (-2.215324960632155) 35 5 100 25 0 = F64.Returns r0 /\
    F64.calculate_evaporation_rate
      52.36458668789802 (-2.215324960632155) 35 0 100 25 14 = F64.Returns w0 /\
    F64.calculate_evaporation_rate
      52.36458668789802 (-2.215324960632155) 35 5 100 25 14 = F64.Returns w5 /\
    F64.calculate_evaporation_rate
      52.36458668789802 (-2.215324960632155) 35 10 100 25 14 = F64.Returns w10 /\
    F64.exposure_fraction r24 = 1 /\
    F64.evap_gallons_per_day r0 = 0 /\
    F64.industry_estimate_gallons r0 = 0 /\
    PrimFloat.ltb (F64.evap_gallons_per_day w0) (F64.evap_gallons_per_day w5)
      = true /\
    PrimFloat.ltb (F64.evap_gallons_per_day w5) (F64.evap_gallons_per_day w10)
      = true /\
    PrimFloat.ltb (F64.evap_gallons_per_day w10)
                  (2 * F64.evap_gallons_per_day w5) = true.
Proof.
  do 5 eexists.
  do 5 (split; [vm_compute; reflexivity |]).
  repeat split; vm_compute; reflexivity.
Qed.

(** The agitation bounds at the ends and outside of the band, on doubles. *)
Lemma f64_agitation_multiplier_band :
  F64.agitation_multiplier 0 = 1 /\
  F64.agitation_multiplier 100 = 2 /\
  F64.agitation_multiplier 200 = 3 /\
  F64.agitation_multiplier 250 = 3.5 /\
  F64.agitation_multiplier (-100) = 0.
Proof. repeat split; vm_compute; reflexivity. Qed.

End Binary64Core.
